(** * Yoga recommendation backend: the scoring and filtering engine

    A shallow embedding of [recommendation_backend.py]: the function
    [recommend_asanas] (validation, query embeddings, the exclusion filter,
    the weighted score, ranking and truncation) and the handler
    [get_recommendations] that turns its outcome into a response.

    Modelling choices.
    - Python floats are exact rationals ([Q]); IEEE rounding error, overflow
      and underflow are not represented.  [round(x, 3)] rounds the exact
      value half-to-even.
    - Python [str] is [string]; [str.lower] folds the ASCII letters.
    - The sentence-transformer model and [util.cos_sim] are external: they
      are parameters of the development.  A call of [model.encode] may raise,
      and its answer may a priori depend on the calls made before it; the
      calls are recorded in a trace that is threaded through the program.
    - Python exceptions are values of [exn]; [try]/[except] is [try_except].
    - Logging is not represented. *)

From Stdlib Require Import List String Ascii ZArith QArith Qround Bool Lia Lqa.
From Stdlib Require Import Sorted Permutation.
Import ListNotations.

Local Open Scope Q_scope.
Local Open Scope string_scope.
Local Open Scope list_scope.

(** ** Python primitives used by the backend *)

Module Py.

(** [str.lower()] on ASCII text. *)
Definition lower_char (c : ascii) : ascii :=
  let n := nat_of_ascii c in
  if ((65 <=? n) && (n <=? 90))%nat then ascii_of_nat (n + 32) else c.

Fixpoint lower (s : string) : string :=
  match s with
  | EmptyString => EmptyString
  | String c s' => String (lower_char c) (lower s')
  end.

(** [sub in s] for strings: [sub] occurs in [s] as a contiguous substring. *)
Fixpoint contains (sub s : string) : bool :=
  if String.prefix sub s then true
  else match s with
       | EmptyString => false
       | String _ s' => contains sub s'
       end.

(** [sep.join(l)]. *)
Definition join (sep : string) (l : list string) : string :=
  String.concat sep l.

(** Truth value of a list: only the empty list is falsy. *)
Definition truthy {A : Type} (l : list A) : bool :=
  match l with
  | [] => false
  | _ :: _ => true
  end.

(** [x > y] and [x < y] on floats. *)
Definition Qltb (x y : Q) : bool := negb (Qle_bool y x).
Definition Qgtb (x y : Q) : bool := Qltb y x.

(** Rounding to the nearest integer, ties to the even one. *)
Definition round_half_even (x : Q) : Z :=
  let f := Qfloor x in
  match Qcompare (x - inject_Z f) (1 # 2) with
  | Lt => f
  | Gt => (f + 1)%Z
  | Eq => if Z.even f then f else (f + 1)%Z
  end.

(** [round(x, ndigits)] for a non-negative number of digits. *)
Definition round (x : Q) (ndigits : nat) : Q :=
  Qmake (round_half_even (x * inject_Z (10 ^ Z.of_nat ndigits)))
        (Z.to_pos (10 ^ Z.of_nat ndigits)).

(** [sorted(l, key=key, reverse=True)]: a stable sort into non-increasing
    key order.  An element is placed before the first element whose key does
    not exceed its own, so that equal keys keep their original order. *)
Fixpoint insert_desc {A : Type} (key : A -> Q) (x : A) (l : list A) : list A :=
  match l with
  | [] => [x]
  | y :: l' =>
      if Qle_bool (key y) (key x) then x :: y :: l'
      else y :: insert_desc key x l'
  end.

Definition sorted_reverse {A : Type} (key : A -> Q) (l : list A) : list A :=
  fold_right (insert_desc key) [] l.

(** [sum] of a list of integers. *)
Definition sum (l : list Z) : Z := fold_left Z.add l 0%Z.

End Py.

(** ** Exceptions and the effect monad *)

(** The handler distinguishes [ValueError] from every other exception. *)
Inductive exn : Type :=
| ValueError (msg : string)
| OtherError (msg : string).

(** The trace of the texts passed to [model.encode], oldest first. *)
Definition trace : Type := list string.

(** A computation reads the trace, may raise, and extends the trace. *)
Definition M (A : Type) : Type := trace -> (exn + A) * trace.

Definition ret {A : Type} (a : A) : M A := fun t => (inr a, t).

Definition raise {A : Type} (e : exn) : M A := fun t => (inl e, t).

Definition bind {A B : Type} (m : M A) (k : A -> M B) : M B :=
  fun t =>
    match m t with
    | (inl e, t') => (inl e, t')
    | (inr a, t') => k a t'
    end.

(** [try: m except Exception as e: h e].  The calls made before the
    exception stay in the trace. *)
Definition try_except {A : Type} (m : M A) (h : exn -> M A) : M A :=
  fun t =>
    match m t with
    | (inl e, t') => h e t'
    | (inr a, t') => (inr a, t')
    end.

(** A pure operation that may raise. *)
Definition lift {A : Type} (r : exn + A) : M A := fun t => (r, t).

Declare Scope monad_scope.
Delimit Scope monad_scope with monad.
Notation "x <- m ;; k" := (bind m (fun x => k))
  (at level 61, m at next level, right associativity) : monad_scope.
Local Open Scope monad_scope.

(** ** Data model *)

(** The request body ([UserInput]); [user_input.dict()] carries the same
    fields, so the profile dictionary is the same record. *)
Record UserInput : Type := {
  age : Z;
  height : Z;
  weight : Z;
  goals : list string;
  physical_issues : list string;
  mental_issues : list string;
  level : string
}.

(** One entry of the returned list. *)
Record recommendation : Type := {
  name : string;
  score : Q;
  benefits : string;
  contraindications : string
}.

(** The scoring weights, as the dictionary of the source. *)
Definition weights : list (string * Z) :=
  [ ("goals_benefits", 4%Z);
    ("physical_benefits", 4%Z);
    ("mental_benefits", 4%Z);
    ("physical_match", 2%Z);
    ("mental_match", 2%Z) ].

(** [weights[k]]; every key used by the source is present. *)
Fixpoint lookup (k : string) (d : list (string * Z)) : Z :=
  match d with
  | [] => 0%Z
  | (k', v) :: d' => if String.eqb k k' then v else lookup k d'
  end.

Definition total_weight : Z := Py.sum (map snd weights).

(** The response of the handler and the exception it raises. *)
Record response : Type := {
  recommended_asanas : list recommendation;
  message : option string;
  total_recommendations : option nat;
  status : string
}.

Record HTTPException : Type := {
  status_code : Z;
  detail : string
}.

(** ** The engine *)

Section Engine.

(** Embedding vectors (the tensors handled by the model). *)
Variable Vec : Type.

(** [model.encode(text, normalize_embeddings=True)], given the calls made
    so far. *)
Variable encode : trace -> string -> exn + Vec.

(** [util.cos_sim(a, b).item()]. *)
Variable cos_sim : Vec -> Vec -> exn + Q.

(** One row of the catalog [df]; the text cells are read through [str]. *)
Record row : Type := {
  AName : string;
  Benefits : string;
  Contraindications : string;
  Benefits_emb : Vec;
  Contraindications_emb : Vec;
  Targeted_Physical_Problems_emb : Vec;
  Targeted_Mental_Problems_emb : Vec
}.

(** The dictionary [user_emb] of the three query embeddings. *)
Record user_emb : Type := {
  emb_goals : Vec;
  emb_physical_issues : Vec;
  emb_mental_issues : Vec
}.

(** A call of the model: the text is appended to the trace, also when the
    call raises. *)
Definition model_encode (text : string) : M Vec :=
  fun t => (encode t text, t ++ [text]).

Definition cos (a b : Vec) : M Q := lift (cos_sim a b).

(** The inner loop over the issue phrases (source lines 94-102); the result
    is the flag [discard]. *)
Fixpoint discard_loop (contra_text : string) (contra_emb : Vec)
    (issues : list string) : M bool :=
  match issues with
  | [] => ret false
  | issue :: rest =>
      let issue := Py.lower issue in
      if Py.contains issue contra_text then ret true
      else
        v <- model_encode issue ;;
        c <- cos v contra_emb ;;
        if Py.Qgtb c 0.25 then ret true
        else discard_loop contra_text contra_emb rest
  end.

(** The body of the per-row [try] (source lines 91-121): [None] when the row
    appends nothing, [Some r] when it appends [r]. *)
Definition row_body (user_profile : UserInput) (ue : user_emb) (r : row)
    : M (option recommendation) :=
  let score := 0.0 in
  let contra_text := Py.lower (Contraindications r) in
  discard <- discard_loop contra_text (Contraindications_emb r)
               (physical_issues user_profile ++ mental_issues user_profile) ;;
  if discard : bool then ret None
  else
    c <- cos (emb_goals ue) (Benefits_emb r) ;;
    let score := score + inject_Z (lookup "goals_benefits" weights) * c in
    c <- cos (emb_physical_issues ue) (Benefits_emb r) ;;
    let score := score + inject_Z (lookup "physical_benefits" weights) * c in
    c <- cos (emb_mental_issues ue) (Benefits_emb r) ;;
    let score := score + inject_Z (lookup "mental_benefits" weights) * c in
    c <- cos (emb_physical_issues ue) (Targeted_Physical_Problems_emb r) ;;
    let score := score + inject_Z (lookup "physical_match" weights) * c in
    c <- cos (emb_mental_issues ue) (Targeted_Mental_Problems_emb r) ;;
    let score := score + inject_Z (lookup "mental_match" weights) * c in
    let score := score / inject_Z total_weight in
    if Py.Qgtb score 0 then
      ret (Some {| name := AName r;
                   score := Py.round score 3;
                   benefits := Benefits r;
                   contraindications := Contraindications r |})
    else ret None.

(** The per-row [try]/[except] (source lines 90-124): a row whose body
    raises appends nothing, and the loop goes on. *)
Definition try_row (user_profile : UserInput) (ue : user_emb) (r : row)
    : M (option recommendation) :=
  try_except (row_body user_profile ue r) (fun _ => ret None).

(** The loop over the catalog (source line 89), with the list
    [recommendations] built so far. *)
Fixpoint for_rows (user_profile : UserInput) (ue : user_emb)
    (rows : list row) (recommendations : list recommendation)
    : M (list recommendation) :=
  match rows with
  | [] => ret recommendations
  | r :: rest =>
      o <- try_row user_profile ue r ;;
      for_rows user_profile ue rest
        match o with
        | Some rec => recommendations ++ [rec]
        | None => recommendations
        end
  end.

(** The three query embeddings (source lines 73-77). *)
Definition query_embeddings (user_profile : UserInput) : M user_emb :=
  g <- model_encode (Py.join " " (goals user_profile)) ;;
  p <- model_encode (Py.join " " (physical_issues user_profile)) ;;
  m <- model_encode (Py.join " " (mental_issues user_profile)) ;;
  ret {| emb_goals := g; emb_physical_issues := p; emb_mental_issues := m |}.

Definition recommend_asanas (df : list row) (user_profile : UserInput)
    : M (list recommendation) :=
  try_except
    (if negb (Py.truthy (goals user_profile))
        || negb (Py.truthy (physical_issues user_profile))
        || negb (Py.truthy (mental_issues user_profile))
     then
       raise (ValueError
         "Missing required fields: goals, physical_issues, or mental_issues")
     else
       ue <- query_embeddings user_profile ;;
       recommendations <- for_rows user_profile ue df [] ;;
       let recommendations := Py.sorted_reverse score recommendations in
       ret (firstn 10 recommendations))
    (fun e => raise e).

(** The handler of [POST /recommend/]: a response, or the HTTP exception it
    raises. *)
Definition get_recommendations (df : list row) (user_input : UserInput)
    : trace -> (HTTPException + response) * trace :=
  fun t =>
    let user_profile := user_input in
    match recommend_asanas df user_profile t with
    | (inr recommended, t') =>
        if negb (Py.truthy recommended) then
          (inr {| recommended_asanas := [];
                  message := Some
                    "No suitable yoga poses found for your profile. Please try adjusting your goals or issues.";
                  total_recommendations := None;
                  status := "success" |}, t')
        else
          (inr {| recommended_asanas := recommended;
                  message := None;
                  total_recommendations := Some (List.length recommended);
                  status := "success" |}, t')
    | (inl (ValueError msg), t') =>
        (inl {| status_code := 400; detail := msg |}, t')
    | (inl (OtherError _), t') =>
        (inl {| status_code := 500;
                detail := "Internal server error occurred while generating recommendations" |},
         t')
    end.

End Engine.

Arguments AName {Vec} _.
Arguments Benefits {Vec} _.
Arguments Contraindications {Vec} _.
Arguments Benefits_emb {Vec} _.
Arguments Contraindications_emb {Vec} _.
Arguments Targeted_Physical_Problems_emb {Vec} _.
Arguments Targeted_Mental_Problems_emb {Vec} _.
Arguments emb_goals {Vec} _.
Arguments emb_physical_issues {Vec} _.
Arguments emb_mental_issues {Vec} _.
Arguments model_encode {Vec} encode text _.
Arguments cos {Vec} cos_sim a b _.
Arguments discard_loop {Vec} encode cos_sim contra_text contra_emb issues _.
Arguments row_body {Vec} encode cos_sim user_profile ue r _.
Arguments try_row {Vec} encode cos_sim user_profile ue r _.
Arguments for_rows {Vec} encode cos_sim user_profile ue rows recommendations _.
Arguments query_embeddings {Vec} encode user_profile _.
Arguments recommend_asanas {Vec} encode cos_sim df user_profile _.
Arguments get_recommendations {Vec} encode cos_sim df user_input _.

(** ** Vocabulary of the statements *)

(** The entries of a list of optional values, in order. *)
Fixpoint somes {A : Type} (l : list (option A)) : list A :=
  match l with
  | [] => []
  | Some a :: l' => a :: somes l'
  | None :: l' => somes l'
  end.

(** The scoring formula as the specification writes it. *)
Definition weighted_average (c1 c2 c3 c4 c5 : Q) : Q :=
  (4 * c1 + 4 * c2 + 4 * c3 + 2 * c4 + 2 * c5) / 16.

(** The entry built from a row and a score before rounding. *)
Definition entry {Vec : Type} (r : row Vec) (s : Q) : recommendation :=
  {| name := AName r;
     score := Py.round s 3;
     benefits := Benefits r;
     contraindications := Contraindications r |}.

(** The message of the validation error. *)
Definition missing_fields : string :=
  "Missing required fields: goals, physical_issues, or mental_issues".

(** A profile passes validation when its three lists are non-empty. *)
Definition valid (p : UserInput) : Prop :=
  goals p <> [] /\ physical_issues p <> [] /\ mental_issues p <> [].

(** [o] is what the row [r] contributes from some trace. *)
Definition outcome {Vec : Type} (encode : trace -> string -> exn + Vec)
    (cos_sim : Vec -> Vec -> exn + Q) (p : UserInput) (ue : user_emb Vec)
    (r : row Vec) (o : option recommendation) : Prop :=
  exists t, fst (try_row encode cos_sim p ue r t) = inr o.

(** The embedder answers the same for a given text, whatever was asked
    before. *)
Definition deterministic {Vec : Type} (encode : trace -> string -> exn + Vec)
    : Prop :=
  forall t t' text, encode t text = encode t' text.

(** Non-increasing order of the keys, and of the scores. *)
Definition key_ge {A : Type} (key : A -> Q) (a b : A) : Prop := key b <= key a.

Definition score_ge : recommendation -> recommendation -> Prop := key_ge score.

(** The entries of [l] whose score equals [v]. *)
Definition with_score (v : Q) (l : list recommendation) : list recommendation :=
  filter (fun x => Qeq_bool (score x) v) l.

(** The exclusion criterion: the flag [discard] is raised exactly when some
    issue phrase matches the contraindications, lexically or semantically.
    [embedded ph] is the text handed to the embedder for the phrase [ph];
    [embed] and [cosv] are the values of a total embedder and cosine. *)
Definition exclusion_criterion {Vec : Type}
    (encode : trace -> string -> exn + Vec) (cos_sim : Vec -> Vec -> exn + Q)
    (embed : string -> Vec) (cosv : Vec -> Vec -> Q)
    (embedded : string -> string)
    (p : UserInput) (r : row Vec) (t : trace) : Prop :=
  fst (discard_loop encode cos_sim (Py.lower (Contraindications r))
         (Contraindications_emb r)
         (physical_issues p ++ mental_issues p) t) = inr true
  <->
  exists ph, In ph (physical_issues p ++ mental_issues p) /\
    (Py.contains (Py.lower ph) (Py.lower (Contraindications r)) = true \/
     0.25 < cosv (embed (embedded ph)) (Contraindications_emb r)).

(** Every returned score lies in the half-open interval from 0 to 1. *)
Definition returned_scores_positive {Vec : Type}
    (encode : trace -> string -> exn + Vec) (cos_sim : Vec -> Vec -> exn + Q)
    (df : list (row Vec)) (p : UserInput) (t : trace) : Prop :=
  forall out rec,
    fst (recommend_asanas encode cos_sim df p t) = inr out ->
    In rec out -> 0 < score rec /\ score rec <= 1.

(** The response for an empty ranking. *)
Definition empty_response : response :=
  {| recommended_asanas := [];
     message := Some
       "No suitable yoga poses found for your profile. Please try adjusting your goals or issues.";
     total_recommendations := None;
     status := "success" |}.

(** ** A test double for the external collaborators

    The embedder returns the text itself as its "vector"; the similarity of
    two vectors is read from a table, and comparing against the cell
    "malformed" raises. *)

Module Fixture.

Definition Vec : Type := string.

Definition encode (_ : trace) (text : string) : exn + Vec := inr text.

Definition similarities : list ((string * string) * Q) :=
  [ (("relax", "calms mind"), 0.8);
    (("relax", "faint"), 1 # 1024);
    (("relax", "strong"), 0.6);
    (("relax", "mild"), 0.4);
    (("Knee", "joints"), 0.9) ].

Fixpoint similarity (a b : string) (d : list ((string * string) * Q)) : Q :=
  match d with
  | [] => 0
  | ((a', b'), v) :: d' =>
      if (String.eqb a a' && String.eqb b b')%bool then v
      else similarity a b d'
  end.

Definition cos_table (a b : Vec) : Q := similarity a b similarities.

Definition cos_total (a b : Vec) : exn + Q := inr (cos_table a b).

Definition cos_sim (a b : Vec) : exn + Q :=
  if String.eqb b "malformed" then inl (OtherError "shape mismatch")
  else inr (cos_table a b).

Definition pose (aname benefits contra bemb cemb : string) : row Vec :=
  {| AName := aname;
     Benefits := benefits;
     Contraindications := contra;
     Benefits_emb := bemb;
     Contraindications_emb := cemb;
     Targeted_Physical_Problems_emb := "physical targets";
     Targeted_Mental_Problems_emb := "mental targets" |}.

Definition calm : row Vec :=
  pose "Sukhasana" "calms mind" "knee injury" "calms mind" "knee injury".
Definition faint : row Vec :=
  pose "Tadasana" "improves posture" "none" "faint" "none".
Definition broken : row Vec :=
  pose "Halasana" "stretches spine" "neck injury" "strong" "malformed".
Definition strong : row Vec :=
  pose "Balasana" "relieves stress" "pregnancy" "strong" "pregnancy".
Definition mild1 : row Vec :=
  pose "Vrksasana" "improves balance" "vertigo" "mild" "vertigo".
Definition mild2 : row Vec :=
  pose "Savasana" "deep rest" "none" "mild" "none".
Definition joints : row Vec :=
  pose "Virasana" "opens hips" "none" "calms mind" "joints".

Definition profile (g ph m : list string) : UserInput :=
  {| age := 30; height := 170; weight := 60;
     goals := g; physical_issues := ph; mental_issues := m;
     level := "beginner" |}.

Definition relaxed : UserInput := profile ["relax"] ["back pain"] ["anxiety"].
Definition no_goals : UserInput := profile [] ["back pain"] ["anxiety"].
Definition blank_issue : UserInput := profile ["relax"] [""] ["anxiety"].
Definition knee_injury : UserInput :=
  profile ["relax"] ["Knee Injury"] ["anxiety"].
Definition capital_knee : UserInput := profile ["relax"] ["Knee"] ["anxiety"].

Definition catalog : list (row Vec) := [mild1; calm; broken; mild2; strong].
Definition long_catalog : list (row Vec) := catalog ++ catalog ++ catalog.

(** The query embeddings of [relaxed] and the trace after deriving them. *)
Definition relaxed_emb : user_emb Vec :=
  {| emb_goals := "relax";
     emb_physical_issues := "back pain";
     emb_mental_issues := "anxiety" |}.
Definition relaxed_trace : trace := ["relax"; "back pain"; "anxiety"].

End Fixture.

(** ** Startup and the health endpoint *)

Module Health.

(** The answer of [GET /health]. *)
Record t : Type := {
  status : string;
  model_loaded : bool;
  data_loaded : bool;
  total_poses : nat
}.

End Health.

Section Service.

Variables Model Vec : Type.

(** Module initialisation (source lines 30-41): the model is loaded, then
    the catalog; an exception of either step is re-raised, so the module
    does not load. *)
Definition initialize (load_model : exn + Model)
    (load_data : exn + list (row Vec)) : exn + (Model * list (row Vec)) :=
  match load_model with
  | inl e => inl e
  | inr model =>
      match load_data with
      | inl e => inl e
      | inr df => inr (model, df)
      end
  end.

(** [health_check] (source lines 57-63) on the globals [model] and [df];
    [None] is Python's [None]. *)
Definition health_check (model : option Model) (df : option (list (row Vec)))
    : Health.t :=
  {| Health.status := "healthy";
     Health.model_loaded := match model with Some _ => true | None => false end;
     Health.data_loaded :=
       match df with
       | Some d => (0 <? List.length d)%nat
       | None => false
       end;
     Health.total_poses :=
       match df with
       | Some d => List.length d
       | None => 0%nat
       end |}.

End Service.

Arguments initialize {Model Vec} load_model load_data.
Arguments health_check {Model Vec} model df.

(** ** Further vocabulary *)

(** The issue phrases of a profile, in the order the filter visits them. *)
Definition issues (p : UserInput) : list string :=
  physical_issues p ++ mental_issues p.

(** The three query texts of a profile, in the order they are embedded. *)
Definition query_texts (p : UserInput) : list string :=
  [ Py.join " " (goals p);
    Py.join " " (physical_issues p);
    Py.join " " (mental_issues p) ].

(** The detail of the answer to an unexpected failure. *)
Definition internal_error : string :=
  "Internal server error occurred while generating recommendations".

(** ** Embedders that fail *)

Module Outage.

(** Rejects the text "relax" with a [ValueError]. *)
Definition picky (_ : trace) (text : string) : exn + Fixture.Vec :=
  if String.eqb text "relax" then inl (ValueError "unsupported input")
  else inr text.

(** Breaks down on the text "anxiety". *)
Definition flaky (_ : trace) (text : string) : exn + Fixture.Vec :=
  if String.eqb text "anxiety" then inl (OtherError "device lost")
  else inr text.

End Outage.

(** ** An embedder that does not see case *)

Module Uncased.

(** The "vector" of a text is its case-folded form, so that two texts that
    differ only in case get the same vector. *)
Definition embed (text : string) : Fixture.Vec := Py.lower text.

Definition encode (_ : trace) (text : string) : exn + Fixture.Vec :=
  inr (embed text).



End Uncased.

(** ** What a row's body yields *)

(** [o] is what the body of the row [r] yields from some trace: its result,
    or nothing when it raises. *)
Definition body_outcome {Vec : Type} (encode : trace -> string -> exn + Vec)
    (cos_sim : Vec -> Vec -> exn + Q) (p : UserInput) (ue : user_emb Vec)
    (r : row Vec) (o : option recommendation) : Prop :=
  exists t,
    match fst (row_body encode cos_sim p ue r t) with
    | inl _ => o = None
    | inr o' => o = o'
    end.

(** ** Python primitives: lemmas *)

Lemma prefix_empty s : String.prefix "" s = true.
Proof. destruct s; reflexivity. Qed.

Lemma contains_empty s : Py.contains "" s = true.
Proof. destruct s; reflexivity. Qed.

Lemma prefix_append sub s : String.prefix sub s = true <-> exists b, s = String.append sub b.
Proof.
  revert s. induction sub as [|c sub IH]; intros s; simpl.
  - split; [intros _; exists s; reflexivity | intros _; destruct s; reflexivity].
  - destruct s as [|c' s]; simpl.
    + split; [discriminate | intros [b H]; discriminate].
    + destruct (Ascii.ascii_dec c c') as [->|Hne].
      * rewrite IH. split; intros [b H]; exists b; congruence.
      * split; [discriminate | intros [b H]; congruence].
Qed.

Lemma contains_unfold sub s :
  Py.contains sub s =
  if String.prefix sub s then true
  else match s with
       | EmptyString => false
       | String _ s' => Py.contains sub s'
       end.
Proof. destruct s; reflexivity. Qed.

Lemma contains_substring sub s :
  Py.contains sub s = true <->
  exists a b, s = String.append a (String.append sub b).
Proof.
  induction s as [|c s IH]; rewrite contains_unfold.
  - destruct (String.prefix sub "") eqn:E.
    + split; [intros _|reflexivity].
      apply prefix_append in E. destruct E as [b E]. exists "", b. exact E.
    + split; [discriminate|].
      intros (a & b & H). destruct a; simpl in H.
      * assert (String.prefix sub "" = true) by (apply prefix_append; eauto). congruence.
      * discriminate.
  - destruct (String.prefix sub (String c s)) eqn:E.
    + split; [intros _|reflexivity].
      apply prefix_append in E. destruct E as [b E]. exists "", b. exact E.
    + rewrite IH. split.
      * intros (a & b & ->). exists (String c a), b. reflexivity.
      * intros (a & b & H). destruct a as [|c' a]; simpl in H.
        -- assert (String.prefix sub (String c s) = true) by (apply prefix_append; eauto). congruence.
        -- injection H as -> ->. eauto.
Qed.

(** The primitives on sample inputs. *)

Example lower_sample : Py.lower "Knee INJURY (L5/S1)" = "knee injury (l5/s1)".
Proof. reflexivity. Qed.

Example contains_sample :
  Py.contains "knee" "avoid with knee injury" = true /\
  Py.contains "knees" "avoid with knee injury" = false /\
  Py.contains "" "" = true.
Proof. repeat split. Qed.

Example join_sample : Py.join " " ["back pain"; "stiff neck"] = "back pain stiff neck".
Proof. reflexivity. Qed.

Example round_sample :
  Py.round 0.1236 3 = 124 # 1000 /\
  Py.round 0.1234 3 = 123 # 1000 /\
  Py.round (1 # 4096) 3 = 0 # 1000 /\
  Py.round 1 3 = 1000 # 1000.
Proof. repeat split. Qed.

Example sorted_reverse_sample :
  Py.sorted_reverse snd
    [("a", 0.1); ("b", 0.3); ("c", 0.1); ("d", 0.2); ("e", 0.3)]
  = [("b", 0.3); ("e", 0.3); ("d", 0.2); ("a", 0.1); ("c", 0.1)].
Proof. reflexivity. Qed.

Example total_weight_sample : total_weight = 16%Z.
Proof. reflexivity. Qed.

Lemma Qltb_lt x y : Py.Qltb x y = true <-> x < y.
Proof.
  unfold Py.Qltb. rewrite negb_true_iff. split.
  - intros H. apply Qnot_le_lt. intros Hle. apply Qle_bool_iff in Hle. congruence.
  - intros H. destruct (Qle_bool y x) eqn:E; [|reflexivity].
    apply Qle_bool_iff in E. lra.
Qed.

Lemma Qgtb_comp x x' y y' : x == x' -> y == y' -> Py.Qgtb x y = Py.Qgtb x' y'.
Proof. intros Hx Hy. unfold Py.Qgtb, Py.Qltb. now rewrite Hx, Hy. Qed.

Lemma round_half_even_comp x y : x == y -> Py.round_half_even x = Py.round_half_even y.
Proof.
  intros H. unfold Py.round_half_even.
  rewrite (Qfloor_comp _ _ H).
  assert (E : x - inject_Z (Qfloor y) == y - inject_Z (Qfloor y)) by (rewrite H; reflexivity).
  rewrite (Qcompare_comp _ _ E _ _ (Qeq_refl (1#2))). reflexivity.
Qed.

Lemma round_comp x y n : x == y -> Py.round x n = Py.round y n.
Proof.
  intros H. unfold Py.round. f_equal. apply round_half_even_comp. now rewrite H.
Qed.

Lemma round_half_even_near x :
  inject_Z (Py.round_half_even x) - (1#2) <= x /\ x <= inject_Z (Py.round_half_even x) + (1#2).
Proof.
  unfold Py.round_half_even.
  pose proof (Qfloor_le x) as Hlo. pose proof (Qlt_floor x) as Hhi.
  rewrite inject_Z_plus in Hhi. change (inject_Z 1) with 1 in Hhi.
  destruct (Qcompare (x - inject_Z (Qfloor x)) (1#2)) eqn:E.
  - apply Qeq_alt in E.
    destruct (Z.even (Qfloor x)); rewrite ?inject_Z_plus;
      change (inject_Z 1) with 1; split; lra.
  - apply Qlt_alt in E. split; lra.
  - apply Qgt_alt in E. rewrite inject_Z_plus. change (inject_Z 1) with 1.
    split; lra.
Qed.

Lemma round_half_even_nonneg x : 0 <= x -> (0 <= Py.round_half_even x)%Z.
Proof.
  intros H. pose proof (Qfloor_resp_le _ _ H) as Hf. change (Qfloor 0) with 0%Z in Hf.
  unfold Py.round_half_even.
  destruct (Qcompare _ _); [destruct (Z.even _)| |]; lia.
Qed.

Lemma round_half_even_le_Z x n : x <= inject_Z n -> (Py.round_half_even x <= n)%Z.
Proof.
  intros H. pose proof (Qfloor_resp_le _ _ H) as Hf. rewrite Qfloor_Z in Hf.
  pose proof (Qfloor_le x) as Hlo.
  unfold Py.round_half_even.
  destruct (Z.eq_dec (Qfloor x) n) as [Heq|Hne].
  - assert (E : Qcompare (x - inject_Z (Qfloor x)) (1#2) = Lt).
    { apply (proj1 (Qlt_alt _ _)). rewrite Heq in Hlo |- *. lra. }
    rewrite E. lia.
  - destruct (Qcompare _ _); [destruct (Z.even _)| |]; lia.
Qed.

Lemma round3_eq s :
  Py.round s 3 == inject_Z (Py.round_half_even (s * 1000)) / 1000.
Proof.
  unfold Py.round. change (10 ^ Z.of_nat 3)%Z with 1000%Z.
  change (Z.to_pos 1000) with 1000%positive. change (inject_Z 1000) with 1000.
  rewrite Qmake_Qdiv. reflexivity.
Qed.

Lemma round3_bounds s : 0 <= s -> s <= 1 -> 0 <= Py.round s 3 /\ Py.round s 3 <= 1.
Proof.
  intros H0 H1.
  assert (Hlo : (0 <= Py.round_half_even (s * 1000))%Z)
    by (apply round_half_even_nonneg; lra).
  assert (Hhi : (Py.round_half_even (s * 1000) <= 1000)%Z)
    by (apply round_half_even_le_Z; change (inject_Z 1000) with 1000; lra).
  unfold Py.round. change (10 ^ Z.of_nat 3)%Z with 1000%Z.
  change (Z.to_pos 1000) with 1000%positive. change (inject_Z 1000) with 1000.
  unfold Qle; simpl. lia.
Qed.

Lemma round3_near s :
  Py.round s 3 - (1 # 2000) <= s /\ s <= Py.round s 3 + (1 # 2000).
Proof.
  rewrite round3_eq.
  destruct (round_half_even_near (s * 1000)) as [Hlo Hhi].
  set (z := inject_Z (Py.round_half_even (s * 1000))) in *.
  unfold Qdiv. change (/ 1000) with (1 # 1000).
  split; lra.
Qed.

Section Sorting.
Context {A : Type} (key : A -> Q).

Lemma insert_desc_perm x l : Permutation (x :: l) (Py.insert_desc key x l).
Proof.
  induction l as [|y l IH]; simpl; [reflexivity|].
  destruct (Qle_bool (key y) (key x)); [reflexivity|].
  rewrite perm_swap. now apply perm_skip.
Qed.

Lemma sorted_reverse_perm l : Permutation l (Py.sorted_reverse key l).
Proof.
  induction l as [|x l IH]; simpl; [reflexivity|].
  rewrite <- insert_desc_perm. now apply perm_skip.
Qed.

Lemma sorted_reverse_length l : List.length (Py.sorted_reverse key l) = List.length l.
Proof. symmetry. apply Permutation_length, sorted_reverse_perm. Qed.

Lemma insert_desc_sorted x l :
  StronglySorted (key_ge key) l -> StronglySorted (key_ge key) (Py.insert_desc key x l).
Proof.
  induction 1 as [|y l Hs IH Hall]; simpl.
  - repeat constructor.
  - destruct (Qle_bool (key y) (key x)) eqn:E.
    + apply Qle_bool_iff in E. constructor; [constructor; assumption|].
      constructor; [exact E|].
      eapply Forall_impl; [|exact Hall]. unfold key_ge. intros a Ha. lra.
    + constructor; [exact IH|].
      assert (Hxy : key x <= key y).
      { destruct (Qlt_le_dec (key x) (key y)) as [Hlt|Hle]; [lra|].
        apply Qle_bool_iff in Hle. congruence. }
      eapply Permutation_Forall; [apply insert_desc_perm|].
      constructor; assumption.
Qed.

Lemma sorted_reverse_sorted l : StronglySorted (key_ge key) (Py.sorted_reverse key l).
Proof.
  induction l as [|x l IH]; simpl; [constructor|].
  now apply insert_desc_sorted.
Qed.

Lemma insert_desc_filter v x l :
  filter (fun a => Qeq_bool (key a) v) (Py.insert_desc key x l) =
  filter (fun a => Qeq_bool (key a) v) (x :: l).
Proof.
  induction l as [|y l IH]; [reflexivity|].
  simpl Py.insert_desc.
  destruct (Qle_bool (key y) (key x)) eqn:E; [reflexivity|].
  simpl in *. rewrite IH.
  destruct (Qeq_bool (key x) v) eqn:Ex; [|reflexivity].
  destruct (Qeq_bool (key y) v) eqn:Ey; [|reflexivity].
  apply Qeq_bool_iff in Ex, Ey.
  assert (Qle_bool (key y) (key x) = true) by (apply Qle_bool_iff; lra).
  congruence.
Qed.

Lemma sorted_reverse_stable v l :
  filter (fun a => Qeq_bool (key a) v) (Py.sorted_reverse key l) =
  filter (fun a => Qeq_bool (key a) v) l.
Proof.
  induction l as [|x l IH]; [reflexivity|].
  simpl Py.sorted_reverse. rewrite insert_desc_filter.
  simpl. now rewrite IH.
Qed.

End Sorting.

Lemma filter_firstn_prefix {A} (f : A -> bool) n l :
  exists k, filter f (firstn n l) = firstn k (filter f l).
Proof.
  revert n. induction l as [|x l IH]; intros [|n]; simpl;
    try (exists 0%nat; reflexivity).
  destruct (IH n) as [k Hk]. destruct (f x).
  - exists (S k). simpl. now rewrite Hk.
  - exists k. exact Hk.
Qed.

(** ** The engine: lemmas *)

Section Properties.
Context {Vec : Type}.
Variable encode : trace -> string -> exn + Vec.
Variable cos_sim : Vec -> Vec -> exn + Q.

Lemma try_row_total p ue r t :
  exists o t', try_row encode cos_sim p ue r t = (inr o, t').
Proof.
  unfold try_row, try_except.
  destruct (row_body encode cos_sim p ue r t) as [[e|o] t']; unfold ret; eauto.
Qed.

Lemma try_row_fst p ue r t :
  fst (try_row encode cos_sim p ue r t) =
  match fst (row_body encode cos_sim p ue r t) with
  | inl _ => inr None
  | inr o => inr o
  end.
Proof.
  unfold try_row, try_except.
  destruct (row_body encode cos_sim p ue r t) as [[e|o] t']; reflexivity.
Qed.

Lemma for_rows_outcomes p ue rows :
  forall acc t, exists os t',
    for_rows encode cos_sim p ue rows acc t = (inr (acc ++ somes os), t') /\
    Forall2 (outcome encode cos_sim p ue) rows os.
Proof.
  induction rows as [|r rows IH]; intros acc t; simpl.
  - exists [], t. simpl. rewrite app_nil_r. split; [reflexivity|constructor].
  - unfold bind.
    destruct (try_row_total p ue r t) as (o & t1 & E). rewrite E.
    destruct (IH (match o with Some rec => acc ++ [rec] | None => acc end) t1)
      as (os & t2 & E2 & HF).
    exists (o :: os), t2. split.
    + rewrite E2. destruct o; simpl; [rewrite <- app_assoc|]; reflexivity.
    + constructor; [|exact HF]. exists t. now rewrite E.
Qed.

Lemma recommend_asanas_invalid df p t :
  goals p = [] \/ physical_issues p = [] \/ mental_issues p = [] ->
  recommend_asanas encode cos_sim df p t = (inl (ValueError missing_fields), t).
Proof.
  intros H. unfold recommend_asanas, try_except.
  assert (E : negb (Py.truthy (goals p)) || negb (Py.truthy (physical_issues p))
              || negb (Py.truthy (mental_issues p)) = true).
  { destruct H as [-> | [-> | ->]]; simpl; rewrite ?orb_true_r; reflexivity. }
  rewrite E. reflexivity.
Qed.

Lemma valid_test p :
  valid p ->
  negb (Py.truthy (goals p)) || negb (Py.truthy (physical_issues p))
    || negb (Py.truthy (mental_issues p)) = false.
Proof.
  intros (Hg & Hp & Hm).
  destruct (goals p); [congruence|].
  destruct (physical_issues p); [congruence|].
  destruct (mental_issues p); [congruence|]. reflexivity.
Qed.

Lemma valid_dec p :
  valid p \/ (goals p = [] \/ physical_issues p = [] \/ mental_issues p = []).
Proof.
  unfold valid.
  destruct (goals p); [right; left; reflexivity|].
  destruct (physical_issues p); [right; right; left; reflexivity|].
  destruct (mental_issues p); [right; right; right; reflexivity|].
  left. repeat split; discriminate.
Qed.

Lemma recommend_asanas_valid df p t :
  valid p ->
  recommend_asanas encode cos_sim df p t =
  match query_embeddings encode p t with
  | (inl e, t1) => (inl e, t1)
  | (inr ue, t1) =>
      match for_rows encode cos_sim p ue df [] t1 with
      | (inl e, t2) => (inl e, t2)
      | (inr recs, t2) => (inr (firstn 10 (Py.sorted_reverse score recs)), t2)
      end
  end.
Proof.
  intros H. unfold recommend_asanas, try_except. rewrite (valid_test p H).
  unfold bind.
  destruct (query_embeddings encode p t) as [[e|ue] t1]; [reflexivity|].
  destruct (for_rows encode cos_sim p ue df [] t1) as [[e|recs] t2]; reflexivity.
Qed.

Lemma recommend_asanas_run df p t ue t1 :
  valid p ->
  query_embeddings encode p t = (inr ue, t1) ->
  exists os t2,
    Forall2 (outcome encode cos_sim p ue) df os /\
    recommend_asanas encode cos_sim df p t =
      (inr (firstn 10 (Py.sorted_reverse score (somes os))), t2).
Proof.
  intros Hv Hq. rewrite (recommend_asanas_valid df p t Hv), Hq.
  destruct (for_rows_outcomes p ue df [] t1) as (os & t2 & E & HF).
  exists os, t2. rewrite E. split; [exact HF|reflexivity].
Qed.

Lemma recommend_asanas_inr df p t out :
  fst (recommend_asanas encode cos_sim df p t) = inr out ->
  valid p /\
  exists ue t1 os,
    query_embeddings encode p t = (inr ue, t1) /\
    Forall2 (outcome encode cos_sim p ue) df os /\
    out = firstn 10 (Py.sorted_reverse score (somes os)).
Proof.
  intros H. destruct (valid_dec p) as [Hv|Hi].
  - split; [exact Hv|].
    destruct (query_embeddings encode p t) as [[e|ue] t1] eqn:Hq.
    + rewrite (recommend_asanas_valid df p t Hv), Hq in H. discriminate.
    + destruct (recommend_asanas_run df p t ue t1 Hv Hq) as (os & t2 & HF & E).
      rewrite E in H. simpl in H. injection H as <-.
      exists ue, t1, os. auto.
  - rewrite (recommend_asanas_invalid df p t Hi) in H. discriminate.
Qed.

(** *** The per-row body *)

Lemma code_score_eq c1 c2 c3 c4 c5 :
  (0.0 + inject_Z (lookup "goals_benefits" weights) * c1
       + inject_Z (lookup "physical_benefits" weights) * c2
       + inject_Z (lookup "mental_benefits" weights) * c3
       + inject_Z (lookup "physical_match" weights) * c4
       + inject_Z (lookup "mental_match" weights) * c5)
    / inject_Z total_weight
  == weighted_average c1 c2 c3 c4 c5.
Proof.
  unfold weighted_average.
  change (inject_Z (lookup "goals_benefits" weights)) with 4.
  change (inject_Z (lookup "physical_benefits" weights)) with 4.
  change (inject_Z (lookup "mental_benefits" weights)) with 4.
  change (inject_Z (lookup "physical_match" weights)) with 2.
  change (inject_Z (lookup "mental_match" weights)) with 2.
  change (inject_Z total_weight) with 16.
  change 0.0 with (0 # 10).
  unfold Qdiv. change (/ 16) with (1 # 16). lra.
Qed.

Lemma row_body_survivor p ue r t t' c1 c2 c3 c4 c5 :
  discard_loop encode cos_sim (Py.lower (Contraindications r))
    (Contraindications_emb r) (physical_issues p ++ mental_issues p) t
    = (inr false, t') ->
  cos_sim (emb_goals ue) (Benefits_emb r) = inr c1 ->
  cos_sim (emb_physical_issues ue) (Benefits_emb r) = inr c2 ->
  cos_sim (emb_mental_issues ue) (Benefits_emb r) = inr c3 ->
  cos_sim (emb_physical_issues ue) (Targeted_Physical_Problems_emb r) = inr c4 ->
  cos_sim (emb_mental_issues ue) (Targeted_Mental_Problems_emb r) = inr c5 ->
  row_body encode cos_sim p ue r t =
    (inr (if Py.Qgtb (weighted_average c1 c2 c3 c4 c5) 0
          then Some (entry r (weighted_average c1 c2 c3 c4 c5))
          else None), t').
Proof.
  intros Hd H1 H2 H3 H4 H5.
  unfold row_body, bind, cos, lift. rewrite Hd, H1, H2, H3, H4, H5.
  pose proof (code_score_eq c1 c2 c3 c4 c5) as E.
  rewrite (Qgtb_comp _ _ _ _ E (Qeq_refl 0)).
  destruct (Py.Qgtb (weighted_average c1 c2 c3 c4 c5) 0); [|reflexivity].
  unfold ret, entry. now rewrite (round_comp _ _ 3 E).
Qed.

Lemma row_body_some p ue r t rec :
  fst (row_body encode cos_sim p ue r t) = inr (Some rec) ->
  exists c1 c2 c3 c4 c5,
    cos_sim (emb_goals ue) (Benefits_emb r) = inr c1 /\
    cos_sim (emb_physical_issues ue) (Benefits_emb r) = inr c2 /\
    cos_sim (emb_mental_issues ue) (Benefits_emb r) = inr c3 /\
    cos_sim (emb_physical_issues ue) (Targeted_Physical_Problems_emb r) = inr c4 /\
    cos_sim (emb_mental_issues ue) (Targeted_Mental_Problems_emb r) = inr c5 /\
    0 < weighted_average c1 c2 c3 c4 c5 /\
    rec = entry r (weighted_average c1 c2 c3 c4 c5).
Proof.
  intros H.
  destruct (discard_loop encode cos_sim (Py.lower (Contraindications r))
              (Contraindications_emb r)
              (physical_issues p ++ mental_issues p) t) as [[e|[|]] t'] eqn:Hd;
    try (unfold row_body, bind in H; rewrite Hd in H; discriminate).
  destruct (cos_sim (emb_goals ue) (Benefits_emb r)) as [e|c1] eqn:H1;
    [unfold row_body, bind, cos, lift in H; rewrite Hd, H1 in H; discriminate|].
  destruct (cos_sim (emb_physical_issues ue) (Benefits_emb r)) as [e|c2] eqn:H2;
    [unfold row_body, bind, cos, lift in H; rewrite Hd, H1, H2 in H;
     discriminate|].
  destruct (cos_sim (emb_mental_issues ue) (Benefits_emb r)) as [e|c3] eqn:H3;
    [unfold row_body, bind, cos, lift in H; rewrite Hd, H1, H2, H3 in H;
     discriminate|].
  destruct (cos_sim (emb_physical_issues ue) (Targeted_Physical_Problems_emb r))
    as [e|c4] eqn:H4;
    [unfold row_body, bind, cos, lift in H; rewrite Hd, H1, H2, H3, H4 in H;
     discriminate|].
  destruct (cos_sim (emb_mental_issues ue) (Targeted_Mental_Problems_emb r))
    as [e|c5] eqn:H5;
    [unfold row_body, bind, cos, lift in H;
     rewrite Hd, H1, H2, H3, H4, H5 in H; discriminate|].
  rewrite (row_body_survivor p ue r t t' c1 c2 c3 c4 c5 Hd H1 H2 H3 H4 H5) in H.
  simpl in H.
  destruct (Py.Qgtb (weighted_average c1 c2 c3 c4 c5) 0) eqn:Hpos;
    [|discriminate].
  injection H as <-. apply Qltb_lt in Hpos.
  exists c1, c2, c3, c4, c5. repeat split; auto.
Qed.

Lemma try_row_some p ue r t rec :
  fst (try_row encode cos_sim p ue r t) = inr (Some rec) ->
  fst (row_body encode cos_sim p ue r t) = inr (Some rec).
Proof.
  rewrite try_row_fst.
  destruct (fst (row_body encode cos_sim p ue r t)); [discriminate|auto].
Qed.

(** *** The exclusion loop *)

Lemma discard_loop_lexical ct ce issues :
  (exists ph, In ph issues /\ Py.contains (Py.lower ph) ct = true) ->
  forall t, fst (discard_loop encode cos_sim ct ce issues t) <> inr false.
Proof.
  induction issues as [|i issues IH]; intros (ph & Hin & Hc) t.
  - destruct Hin.
  - simpl. destruct (Py.contains (Py.lower i) ct) eqn:Ei; [discriminate|].
    assert (Hrest : exists ph, In ph issues /\ Py.contains (Py.lower ph) ct = true).
    { destruct Hin as [->|Hin]; [congruence|eauto]. }
    unfold bind, model_encode, cos, lift.
    destruct (encode t (Py.lower i)) as [e|v]; [discriminate|].
    destruct (cos_sim v ce) as [e|c]; [discriminate|].
    destruct (Py.Qgtb c 0.25); [discriminate|].
    apply IH, Hrest.
Qed.

Lemma try_row_excluded p ue r t :
  fst (discard_loop encode cos_sim (Py.lower (Contraindications r))
         (Contraindications_emb r)
         (physical_issues p ++ mental_issues p) t) <> inr false ->
  fst (try_row encode cos_sim p ue r t) = inr None.
Proof.
  intros H. rewrite try_row_fst. unfold row_body, bind.
  destruct (discard_loop encode cos_sim (Py.lower (Contraindications r))
              (Contraindications_emb r)
              (physical_issues p ++ mental_issues p) t) as [[e|[|]] t'];
    simpl in *; congruence.
Qed.

Lemma discard_loop_total (embed : string -> Vec) (cosv : Vec -> Vec -> Q)
    ct ce issues :
  (forall t text, encode t text = inr (embed text)) ->
  (forall a b, cos_sim a b = inr (cosv a b)) ->
  forall t,
    fst (discard_loop encode cos_sim ct ce issues t) =
    inr (existsb (fun ph => Py.contains (Py.lower ph) ct
                            || Py.Qgtb (cosv (embed (Py.lower ph)) ce) 0.25)
           issues).
Proof.
  intros He Hc. induction issues as [|i issues IH]; intros t; [reflexivity|].
  simpl. destruct (Py.contains (Py.lower i) ct); [reflexivity|].
  unfold bind, model_encode, cos, lift. rewrite He, Hc. simpl.
  destruct (Py.Qgtb (cosv (embed (Py.lower i)) ce) 0.25); [reflexivity|].
  apply IH.
Qed.

(** *** A deterministic embedder *)

Lemma discard_loop_det ct ce issues :
  deterministic encode ->
  forall t t',
    fst (discard_loop encode cos_sim ct ce issues t) =
    fst (discard_loop encode cos_sim ct ce issues t').
Proof.
  intros Hdet. induction issues as [|i issues IH]; intros t t'; [reflexivity|].
  simpl. destruct (Py.contains (Py.lower i) ct); [reflexivity|].
  unfold bind, model_encode, cos, lift. rewrite (Hdet t t').
  destruct (encode t' (Py.lower i)) as [e|v]; [reflexivity|].
  destruct (cos_sim v ce) as [e|c]; [reflexivity|].
  destruct (Py.Qgtb c 0.25); [reflexivity|]. apply IH.
Qed.

Lemma row_body_det p ue r :
  deterministic encode ->
  forall t t',
    fst (row_body encode cos_sim p ue r t) =
    fst (row_body encode cos_sim p ue r t').
Proof.
  intros Hdet t t'.
  pose proof (discard_loop_det (Py.lower (Contraindications r))
                (Contraindications_emb r)
                (physical_issues p ++ mental_issues p) Hdet t t') as E.
  unfold row_body, bind, cos, lift.
  destruct (discard_loop encode cos_sim _ _ _ t) as [[e|d] t1];
    destruct (discard_loop encode cos_sim _ _ _ t') as [[e'|d'] t1'];
    simpl in E; try discriminate; injection E as <-; [reflexivity|].
  destruct d; [reflexivity|].
  destruct (cos_sim _ _); [reflexivity|].
  destruct (cos_sim _ _); [reflexivity|].
  destruct (cos_sim _ _); [reflexivity|].
  destruct (cos_sim _ _); [reflexivity|].
  destruct (cos_sim _ _); [reflexivity|].
  destruct (Py.Qgtb _ _); reflexivity.
Qed.

Lemma outcome_functional p ue r o o' :
  deterministic encode ->
  outcome encode cos_sim p ue r o -> outcome encode cos_sim p ue r o' -> o = o'.
Proof.
  intros Hdet [t H] [t' H']. rewrite try_row_fst in H, H'.
  rewrite (row_body_det p ue r Hdet t t') in H. congruence.
Qed.

Lemma outcomes_functional p ue rows :
  deterministic encode ->
  forall os os',
    Forall2 (outcome encode cos_sim p ue) rows os ->
    Forall2 (outcome encode cos_sim p ue) rows os' -> os = os'.
Proof.
  intros Hdet os os' H. revert os'.
  induction H as [|r o rows os Ho Hos IH]; intros os' H'; inversion H'; subst.
  - reflexivity.
  - f_equal; [eapply outcome_functional; eauto|auto].
Qed.

Lemma query_embeddings_det p :
  deterministic encode ->
  forall t t',
    fst (query_embeddings encode p t) = fst (query_embeddings encode p t').
Proof.
  intros Hdet t t'. unfold query_embeddings, bind, model_encode.
  rewrite (Hdet t t'). destruct (encode t' _); [reflexivity|].
  rewrite (Hdet (t ++ _) (t' ++ [Py.join " " (goals p)])).
  destruct (encode _ (Py.join " " (physical_issues p))); [reflexivity|].
  rewrite (Hdet ((t ++ _) ++ _)
             ((t' ++ [Py.join " " (goals p)])
                ++ [Py.join " " (physical_issues p)])).
  destruct (encode _ (Py.join " " (mental_issues p))); reflexivity.
Qed.

(** *** Lists of outcomes *)

Lemma somes_app {A} (a b : list (option A)) : somes (a ++ b) = somes a ++ somes b.
Proof.
  induction a as [|[x|] a IH]; simpl; [reflexivity| |exact IH].
  now rewrite IH.
Qed.

Lemma In_somes {A} (x : A) os : In x (somes os) -> In (Some x) os.
Proof.
  induction os as [|[y|] os IH]; simpl; [tauto| |tauto].
  intros [->|H]; [left; reflexivity|right; auto].
Qed.

Lemma somes_all_none {A} (os : list (option A)) :
  (forall x, ~ In (Some x) os) -> somes os = [].
Proof.
  induction os as [|[y|] os IH]; simpl; intros H; [reflexivity| |].
  - exfalso. apply (H y). left. reflexivity.
  - apply IH. intros x Hx. apply (H x). right. exact Hx.
Qed.

Lemma Forall2_In_r {A B} (R : A -> B -> Prop) l l' y :
  Forall2 R l l' -> In y l' -> exists x, In x l /\ R x y.
Proof.
  induction 1 as [|a b l l' Hab HF IH]; simpl; [tauto|].
  intros [<-|Hin]; [exists a; auto|].
  destruct (IH Hin) as (x & Hx & HR). exists x. auto.
Qed.

Lemma In_firstn_In {A} (x : A) n l : In x (firstn n l) -> In x l.
Proof.
  revert n. induction l as [|a l IH]; intros [|n]; simpl; try tauto.
  intros [->|H]; [left; reflexivity|right; eauto].
Qed.

Lemma StronglySorted_firstn {A} (R : A -> A -> Prop) n l :
  StronglySorted R l -> StronglySorted R (firstn n l).
Proof.
  intros H. revert n. induction H as [|a l Hs IH Hall]; intros [|n]; simpl;
    try constructor; auto.
  rewrite Forall_forall in *. intros x Hx. apply Hall.
  eapply In_firstn_In, Hx.
Qed.

Lemma In_output_In_candidates rec recs :
  In rec (firstn 10 (Py.sorted_reverse score recs)) -> In rec recs.
Proof.
  intros H. apply In_firstn_In in H.
  eapply Permutation_in; [symmetry; apply sorted_reverse_perm|exact H].
Qed.

(** *** Removing a row that contributes nothing *)

Lemma skip_row df1 r df2 p t :
  deterministic encode ->
  (forall ue t1, query_embeddings encode p t = (inr ue, t1) ->
                 outcome encode cos_sim p ue r None) ->
  fst (recommend_asanas encode cos_sim (df1 ++ r :: df2) p t) =
  fst (recommend_asanas encode cos_sim (df1 ++ df2) p t).
Proof.
  intros Hdet Hnone. destruct (valid_dec p) as [Hv|Hi].
  - destruct (query_embeddings encode p t) as [[e|ue] t1] eqn:Hq.
    + rewrite !(recommend_asanas_valid _ p t Hv), Hq. reflexivity.
    + destruct (recommend_asanas_run (df1 ++ r :: df2) p t ue t1 Hv Hq)
        as (os & t2 & HF & E).
      destruct (recommend_asanas_run (df1 ++ df2) p t ue t1 Hv Hq)
        as (os' & t2' & HF' & E').
      rewrite E, E'. simpl. do 3 f_equal.
      apply Forall2_app_inv_l in HF. destruct HF as (os1 & os2 & H1 & H2 & ->).
      inversion H2 as [|r0 o rows os3 Ho H3]; subst.
      apply Forall2_app_inv_l in HF'.
      destruct HF' as (os1' & os2' & H1' & H2' & ->).
      rewrite (outcomes_functional p ue df1 Hdet _ _ H1 H1').
      rewrite (outcomes_functional p ue df2 Hdet _ _ H3 H2').
      rewrite (outcome_functional p ue r _ _ Hdet Ho (Hnone ue t1 eq_refl)).
      rewrite !somes_app. reflexivity.
  - rewrite !(recommend_asanas_invalid _ p t Hi). reflexivity.
Qed.

(** *** The handler *)

Lemma get_recommendations_empty df p t t' :
  recommend_asanas encode cos_sim df p t = (inr [], t') ->
  get_recommendations encode cos_sim df p t =
    (inr empty_response, t').
Proof. intros H. unfold get_recommendations. rewrite H. reflexivity. Qed.

Lemma get_recommendations_fst df p t t' :
  fst (recommend_asanas encode cos_sim df p t) =
  fst (recommend_asanas encode cos_sim df p t') ->
  fst (get_recommendations encode cos_sim df p t) =
  fst (get_recommendations encode cos_sim df p t').
Proof.
  unfold get_recommendations.
  destruct (recommend_asanas encode cos_sim df p t) as [[[m|m]|out] t1];
    destruct (recommend_asanas encode cos_sim df p t') as [[[m'|m']|out'] t1'];
    simpl; intros H; try discriminate; try injection H as <-;
    try reflexivity.
  destruct (negb (Py.truthy out)); reflexivity.
Qed.

Lemma StronglySorted_adjacent {A} (R : A -> A -> Prop) l :
  StronglySorted R l ->
  forall i a b, nth_error l i = Some a -> nth_error l (S i) = Some b -> R a b.
Proof.
  induction 1 as [|x l Hs IH Hall]; intros i a b Ha Hb.
  - destruct i; discriminate.
  - destruct i as [|i]; simpl in Ha, Hb.
    + injection Ha as <-. rewrite Forall_forall in Hall. apply Hall.
      destruct l; [discriminate|]. simpl in Hb. injection Hb as <-.
      left. reflexivity.
    + eapply IH; eauto.
Qed.

Lemma no_candidates_run df p t ue t1 :
  valid p ->
  query_embeddings encode p t = (inr ue, t1) ->
  (forall r, In r df ->
     forall t' rec, fst (row_body encode cos_sim p ue r t') <> inr (Some rec)) ->
  exists t2, recommend_asanas encode cos_sim df p t = (inr [], t2).
Proof.
  intros Hv Hq Hnone.
  destruct (recommend_asanas_run df p t ue t1 Hv Hq) as (os & t2 & HF & E).
  exists t2. rewrite E. rewrite (somes_all_none os); [reflexivity|].
  intros rec Hin.
  destruct (Forall2_In_r _ _ _ _ HF Hin) as (r & Hr & t' & Ht').
  apply try_row_some in Ht'. exact (Hnone r Hr t' rec Ht').
Qed.

(** ** The claims *)

(** C1.  For a row that survives the exclusion filter, the body builds its
    entry from the weighted average
    (4*c1 + 4*c2 + 4*c3 + 2*c4 + 2*c5) / 16 of the five cosines (kept when
    positive, shown rounded to three digits).  In particular, for a catalog
    of that one row, a valid profile, c1 = 0.8 and the four other cosines 0,
    the request returns exactly that row, first, with score 0.2. *)
Theorem score_is_weighted_average
    (p : UserInput) (ue : user_emb Vec) (r : row Vec) (t0 t1 t2 : trace)
    (c1 c2 c3 c4 c5 : Q) :
  discard_loop encode cos_sim (Py.lower (Contraindications r))
    (Contraindications_emb r) (physical_issues p ++ mental_issues p) t1
    = (inr false, t2) ->
  cos_sim (emb_goals ue) (Benefits_emb r) = inr c1 ->
  cos_sim (emb_physical_issues ue) (Benefits_emb r) = inr c2 ->
  cos_sim (emb_mental_issues ue) (Benefits_emb r) = inr c3 ->
  cos_sim (emb_physical_issues ue) (Targeted_Physical_Problems_emb r) = inr c4 ->
  cos_sim (emb_mental_issues ue) (Targeted_Mental_Problems_emb r) = inr c5 ->
  row_body encode cos_sim p ue r t1 =
    (inr (if Py.Qgtb (weighted_average c1 c2 c3 c4 c5) 0
          then Some (entry r (weighted_average c1 c2 c3 c4 c5))
          else None), t2)
  /\
  (valid p ->
   query_embeddings encode p t0 = (inr ue, t1) ->
   c1 == 0.8 -> c2 == 0 -> c3 == 0 -> c4 == 0 -> c5 == 0 ->
   recommend_asanas encode cos_sim [r] p t0 =
     (inr [ {| name := AName r;
               score := 200 # 1000;
               benefits := Benefits r;
               contraindications := Contraindications r |} ], t2)).
Proof.
  intros Hd H1 H2 H3 H4 H5.
  pose proof (row_body_survivor p ue r t1 t2 c1 c2 c3 c4 c5 Hd H1 H2 H3 H4 H5)
    as Hrow.
  split; [exact Hrow|].
  intros Hv Hq E1 E2 E3 E4 E5.
  assert (E : weighted_average c1 c2 c3 c4 c5 == 0.2).
  { unfold weighted_average. rewrite E1, E2, E3, E4, E5. reflexivity. }
  rewrite (Qgtb_comp _ _ _ _ E (Qeq_refl 0)) in Hrow.
  change (Py.Qgtb 0.2 0) with true in Hrow.
  unfold entry in Hrow. rewrite (round_comp _ _ 3 E) in Hrow.
  change (Py.round 0.2 3) with (200 # 1000) in Hrow.
  rewrite (recommend_asanas_valid [r] p t0 Hv), Hq.
  simpl. unfold bind, try_row, try_except. rewrite Hrow. reflexivity.
Qed.

(** C3.  A successful request returns at most 10 entries, and each entry's
    score is greater than or equal to the score of the entry after it. *)
Theorem output_capped_and_sorted
    (df : list (row Vec)) (p : UserInput) (t : trace)
    (out : list recommendation) :
  fst (recommend_asanas encode cos_sim df p t) = inr out ->
  (List.length out <= 10)%nat /\
  Sorted score_ge out /\
  (forall i a b,
     nth_error out i = Some a -> nth_error out (S i) = Some b ->
     score b <= score a).
Proof.
  intros H. apply recommend_asanas_inr in H.
  destruct H as (_ & ue & t1 & os & _ & _ & ->).
  assert (Hs : StronglySorted score_ge
                 (firstn 10 (Py.sorted_reverse score (somes os))))
    by apply StronglySorted_firstn, sorted_reverse_sorted.
  split; [apply firstn_le_length|].
  split; [apply StronglySorted_Sorted, Hs|].
  intros i a b Ha Hb. exact (StronglySorted_adjacent _ _ Hs i a b Ha Hb).
Qed.

(** C5.  When one of the lists goals, physical_issues, mental_issues is
    empty, [recommend_asanas] raises the validation error and the handler
    answers with status 400; the trace of embedder calls is returned
    unchanged, so no call was made. *)
Theorem invalid_profile_rejected_before_encoding
    (df : list (row Vec)) (p : UserInput) (t : trace) :
  goals p = [] \/ physical_issues p = [] \/ mental_issues p = [] ->
  recommend_asanas encode cos_sim df p t
    = (inl (ValueError missing_fields), t) /\
  get_recommendations encode cos_sim df p t
    = (inl {| status_code := 400; detail := missing_fields |}, t).
Proof.
  intros H. pose proof (recommend_asanas_invalid df p t H) as E.
  split; [exact E|]. unfold get_recommendations. rewrite E. reflexivity.
Qed.

(** C7.  For a valid profile whose query embeddings are obtained, if no row
    of the catalog yields a candidate (each is filtered out, fails, or has a
    non-positive score), the request succeeds with the empty list and the
    handler answers with the empty ranking and status "success".  This is
    the case, for example, when every row's contraindications text contains
    one of the case-folded issue phrases. *)
Theorem no_candidates_is_success
    (df : list (row Vec)) (p : UserInput) (t t1 : trace) (ue : user_emb Vec) :
  valid p ->
  query_embeddings encode p t = (inr ue, t1) ->
  (forall r, In r df ->
     (forall t' rec,
        fst (row_body encode cos_sim p ue r t') <> inr (Some rec)) \/
     (exists ph, In ph (physical_issues p ++ mental_issues p) /\
        Py.contains (Py.lower ph) (Py.lower (Contraindications r)) = true)) ->
  exists t2,
    recommend_asanas encode cos_sim df p t = (inr [], t2) /\
    get_recommendations encode cos_sim df p t = (inr empty_response, t2) /\
    status empty_response = "success".
Proof.
  intros Hv Hq Hnone.
  destruct (no_candidates_run df p t ue t1 Hv Hq) as (t2 & E).
  { intros r Hr t' rec Hsome. destruct (Hnone r Hr) as [H|Hlex].
    - exact (H t' rec Hsome).
    - pose proof (try_row_excluded p ue r t'
                    (discard_loop_lexical _ _ _ Hlex t')) as Hrow.
      rewrite try_row_fst, Hsome in Hrow. discriminate. }
  exists t2. split; [exact E|]. split; [|reflexivity].
  apply get_recommendations_empty, E.
Qed.

(** C8.  With an embedder that answers the same for a given text, the
    outcome of a request does not depend on the calls made before it: the
    same profile on the same catalog gives the same result, in particular
    when the request is issued a second time. *)
Theorem recommend_is_repeatable
    (df : list (row Vec)) (p : UserInput) (t t' : trace) :
  deterministic encode ->
  fst (recommend_asanas encode cos_sim df p t) =
    fst (recommend_asanas encode cos_sim df p t') /\
  fst (recommend_asanas encode cos_sim df p
         (snd (recommend_asanas encode cos_sim df p t))) =
    fst (recommend_asanas encode cos_sim df p t) /\
  fst (get_recommendations encode cos_sim df p
         (snd (get_recommendations encode cos_sim df p t))) =
    fst (get_recommendations encode cos_sim df p t).
Proof.
  intros Hdet.
  assert (Hany : forall u u',
            fst (recommend_asanas encode cos_sim df p u) =
            fst (recommend_asanas encode cos_sim df p u')).
  { intros u u'. destruct (valid_dec p) as [Hv|Hi].
    - pose proof (query_embeddings_det p Hdet u u') as Eq.
      destruct (query_embeddings encode p u) as [[e|ue] u1] eqn:Hq;
        destruct (query_embeddings encode p u') as [[e'|ue'] u1'] eqn:Hq';
        simpl in Eq; try discriminate.
      + rewrite !(recommend_asanas_valid df p _ Hv), Hq, Hq'.
        injection Eq as <-. reflexivity.
      + injection Eq as <-.
        destruct (recommend_asanas_run df p u ue u1 Hv Hq)
          as (os & u2 & HF & E).
        destruct (recommend_asanas_run df p u' ue u1' Hv Hq')
          as (os' & u2' & HF' & E').
        rewrite E, E'. simpl.
        now rewrite (outcomes_functional p ue df Hdet _ _ HF HF').
    - rewrite !(recommend_asanas_invalid df p _ Hi). reflexivity. }
  split; [apply Hany|]. split; [apply Hany|].
  apply get_recommendations_fst, Hany.
Qed.

(** C9.  Let [os] list, row by row in catalog order, what each row
    contributed; the candidates are the entries of [os] in that order.  For
    every score value, the returned entries with that (rounded) score are an
    initial segment of the candidates with that score: equal scores keep
    their catalog order. *)
Theorem ties_keep_catalog_order
    (df : list (row Vec)) (p : UserInput) (t : trace)
    (out : list recommendation) :
  fst (recommend_asanas encode cos_sim df p t) = inr out ->
  exists ue os,
    fst (query_embeddings encode p t) = inr ue /\
    Forall2 (outcome encode cos_sim p ue) df os /\
    forall v, exists k,
      with_score v out = firstn k (with_score v (somes os)).
Proof.
  intros H. apply recommend_asanas_inr in H.
  destruct H as (_ & ue & t1 & os & Hq & HF & ->).
  exists ue, os. rewrite Hq. split; [reflexivity|]. split; [exact HF|].
  intros v. unfold with_score.
  destruct (filter_firstn_prefix (fun x => Qeq_bool (score x) v) 10
              (Py.sorted_reverse score (somes os))) as [k Hk].
  exists k. rewrite Hk. now rewrite sorted_reverse_stable.
Qed.

(** C10.  When the empty string is one of the issue phrases of a valid
    profile whose query embeddings are obtained, the substring test holds
    against every contraindications text, the exclusion loop never lets a
    row through, every row contributes nothing, and the request succeeds
    with the empty list. *)
Theorem empty_phrase_excludes_every_item
    (df : list (row Vec)) (p : UserInput) (t t1 : trace) (ue : user_emb Vec) :
  valid p ->
  In "" (physical_issues p) \/ In "" (mental_issues p) ->
  query_embeddings encode p t = (inr ue, t1) ->
  (forall r : row Vec,
     Py.contains (Py.lower "") (Py.lower (Contraindications r)) = true) /\
  (forall (r : row Vec) t',
     fst (discard_loop encode cos_sim (Py.lower (Contraindications r))
            (Contraindications_emb r)
            (physical_issues p ++ mental_issues p) t') <> inr false) /\
  (forall (r : row Vec) t',
     fst (try_row encode cos_sim p ue r t') = inr None) /\
  exists t2,
    recommend_asanas encode cos_sim df p t = (inr [], t2) /\
    get_recommendations encode cos_sim df p t = (inr empty_response, t2).
Proof.
  intros Hv Hin Hq.
  assert (Hlex : forall r : row Vec,
            Py.contains (Py.lower "") (Py.lower (Contraindications r)) = true)
    by (intros r; apply contains_empty).
  assert (Hloop : forall (r : row Vec) t',
            fst (discard_loop encode cos_sim (Py.lower (Contraindications r))
                   (Contraindications_emb r)
                   (physical_issues p ++ mental_issues p) t') <> inr false).
  { intros r t'. apply discard_loop_lexical. exists "". split; [|apply Hlex].
    apply in_or_app. exact Hin. }
  assert (Hrow : forall (r : row Vec) t',
            fst (try_row encode cos_sim p ue r t') = inr None)
    by (intros r t'; apply try_row_excluded, Hloop).
  repeat split; auto.
  destruct (no_candidates_run df p t ue t1 Hv Hq) as (t2 & E).
  { intros r _ t' rec Hsome. specialize (Hrow r t').
    rewrite try_row_fst, Hsome in Hrow. discriminate. }
  exists t2. split; [exact E|]. apply get_recommendations_empty, E.
Qed.


(** C4 (amended).  Each returned entry comes from a row of the catalog whose
    weighted average [s] of the five cosines is strictly positive; its score
    field is [s] rounded to three decimal digits (within 0.0005 of [s]) and
    is greater than or equal to 0.  When the five cosines of that row are at
    most 1, [s] and the score field are at most 1. *)
Theorem returned_score_is_rounded_average
    (df : list (row Vec)) (p : UserInput) (t : trace)
    (out : list recommendation) (rec : recommendation) :
  fst (recommend_asanas encode cos_sim df p t) = inr out ->
  In rec out ->
  exists ue r c1 c2 c3 c4 c5,
    fst (query_embeddings encode p t) = inr ue /\
    In r df /\
    cos_sim (emb_goals ue) (Benefits_emb r) = inr c1 /\
    cos_sim (emb_physical_issues ue) (Benefits_emb r) = inr c2 /\
    cos_sim (emb_mental_issues ue) (Benefits_emb r) = inr c3 /\
    cos_sim (emb_physical_issues ue) (Targeted_Physical_Problems_emb r) = inr c4 /\
    cos_sim (emb_mental_issues ue) (Targeted_Mental_Problems_emb r) = inr c5 /\
    0 < weighted_average c1 c2 c3 c4 c5 /\
    rec = entry r (weighted_average c1 c2 c3 c4 c5) /\
    score rec = Py.round (weighted_average c1 c2 c3 c4 c5) 3 /\
    score rec - (1 # 2000) <= weighted_average c1 c2 c3 c4 c5 /\
    weighted_average c1 c2 c3 c4 c5 <= score rec + (1 # 2000) /\
    0 <= score rec /\
    (c1 <= 1 -> c2 <= 1 -> c3 <= 1 -> c4 <= 1 -> c5 <= 1 ->
     weighted_average c1 c2 c3 c4 c5 <= 1 /\ score rec <= 1).
Proof.
  intros H Hin. apply recommend_asanas_inr in H.
  destruct H as (_ & ue & t1 & os & Hq & HF & ->).
  apply In_output_In_candidates, In_somes in Hin.
  destruct (Forall2_In_r _ _ _ _ HF Hin) as (r & Hr & t' & Ht').
  apply try_row_some, row_body_some in Ht'.
  destruct Ht' as (c1 & c2 & c3 & c4 & c5 & H1 & H2 & H3 & H4 & H5 & Hpos & ->).
  destruct (round3_near (weighted_average c1 c2 c3 c4 c5)) as [Hn1 Hn2].
  assert (Hr0 : 0 <= Py.round (weighted_average c1 c2 c3 c4 c5) 3).
  { assert (Hz : (0 <= Py.round_half_even
                         (weighted_average c1 c2 c3 c4 c5 * 1000))%Z)
      by (apply round_half_even_nonneg; lra).
    unfold Py.round. change (10 ^ Z.of_nat 3)%Z with 1000%Z.
    change (Z.to_pos 1000) with 1000%positive.
    change (inject_Z 1000) with 1000. unfold Qle; simpl. lia. }
  exists ue, r, c1, c2, c3, c4, c5. rewrite Hq. simpl.
  repeat (split; [solve [auto]|]).
  intros L1 L2 L3 L4 L5.
  assert (Hle : weighted_average c1 c2 c3 c4 c5 <= 1).
  { unfold weighted_average, Qdiv. change (/ 16) with (1 # 16). lra. }
  split; [exact Hle|].
  apply (round3_bounds (weighted_average c1 c2 c3 c4 c5)); [lra|exact Hle].
Qed.

Lemma outcome_body p ue r o :
  outcome encode cos_sim p ue r o -> body_outcome encode cos_sim p ue r o.
Proof.
  intros [t H]. exists t. rewrite try_row_fst in H.
  destruct (fst (row_body encode cos_sim p ue r t)); congruence.
Qed.

Lemma body_outcome_some p ue r t rec :
  fst (row_body encode cos_sim p ue r t) = inr (Some rec) ->
  outcome encode cos_sim p ue r (Some rec).
Proof. intros H. exists t. rewrite try_row_fst, H. reflexivity. Qed.

Lemma Forall2_In_l {A B} (R : A -> B -> Prop) l l' x :
  Forall2 R l l' -> In x l -> exists y, In y l' /\ R x y.
Proof.
  induction 1 as [|a b l l' Hab HF IH]; simpl; [tauto|].
  intros [<-|Hin]; [exists b; auto|].
  destruct (IH Hin) as (y & Hy & HR). exists y. auto.
Qed.

Lemma In_Some_somes {A} (x : A) os : In (Some x) os -> In x (somes os).
Proof.
  induction os as [|[y|] os IH]; simpl; [tauto| |].
  - intros [H|H]; [injection H as ->; left; reflexivity|right; auto].
  - intros [H|H]; [discriminate|auto].
Qed.

(** C6.  With an embedder that answers the same for a given text, a valid
    profile and its query embeddings obtained: if evaluating the row [r]
    raises, that row contributes nothing and the request still succeeds.
    Its output is the one for the catalog without [r]: the first ten, by
    descending score, of what the bodies of the rows before [r] and of the
    rows after [r] yield, in catalog order.  In particular every entry that
    the body of another row yields is among the candidates that are
    ranked. *)
Theorem faulty_item_is_skipped
    (df1 df2 : list (row Vec)) (r : row Vec) (p : UserInput)
    (t t1 t' : trace) (ue : user_emb Vec) (e : exn) :
  deterministic encode ->
  valid p ->
  query_embeddings encode p t = (inr ue, t1) ->
  fst (row_body encode cos_sim p ue r t') = inl e ->
  fst (try_row encode cos_sim p ue r t') = inr None /\
  exists os1 os2,
    Forall2 (body_outcome encode cos_sim p ue) df1 os1 /\
    Forall2 (body_outcome encode cos_sim p ue) df2 os2 /\
    (forall r' t'' rec,
       In r' (df1 ++ df2) ->
       fst (row_body encode cos_sim p ue r' t'') = inr (Some rec) ->
       In rec (somes os1 ++ somes os2)) /\
    fst (recommend_asanas encode cos_sim (df1 ++ r :: df2) p t)
      = inr (firstn 10 (Py.sorted_reverse score (somes os1 ++ somes os2))) /\
    fst (recommend_asanas encode cos_sim (df1 ++ df2) p t)
      = inr (firstn 10 (Py.sorted_reverse score (somes os1 ++ somes os2))).
Proof.
  intros Hdet Hv Hq Hraise.
  assert (Hrow : fst (try_row encode cos_sim p ue r t') = inr None)
    by (rewrite try_row_fst, Hraise; reflexivity).
  split; [exact Hrow|].
  destruct (recommend_asanas_run (df1 ++ df2) p t ue t1 Hv Hq)
    as (os & t2 & HF & E).
  pose proof HF as HF0.
  apply Forall2_app_inv_l in HF. destruct HF as (os1 & os2 & H1 & H2 & ->).
  exists os1, os2.
  split; [eapply Forall2_impl; [|exact H1]; intros a b; apply outcome_body|].
  split; [eapply Forall2_impl; [|exact H2]; intros a b; apply outcome_body|].
  rewrite somes_app in E. split; [|split].
  - intros r' t'' rec Hin Hbody. rewrite <- somes_app. apply In_Some_somes.
    destruct (Forall2_In_l _ _ _ _ HF0 Hin) as (o & Ho & Hout).
    rewrite (outcome_functional p ue r' _ _ Hdet
               (body_outcome_some p ue r' t'' rec Hbody) Hout).
    exact Ho.
  - rewrite (skip_row df1 r df2 p t Hdet); [rewrite E; reflexivity|].
    intros ue' t1' Hq'. rewrite Hq in Hq'. injection Hq' as <- <-.
    exists t'. exact Hrow.
  - rewrite E. reflexivity.
Qed.

End Properties.

(** ** The claims on the test double *)

Lemma fixture_cosines_bounded (a b : Fixture.Vec) (c : Q) :
  Fixture.cos_sim a b = inr c -> -1 <= c /\ c <= 1.
Proof.
  unfold Fixture.cos_sim. destruct (String.eqb b "malformed"); [discriminate|].
  intros H. injection H as <-.
  unfold Fixture.cos_table, Fixture.similarities. simpl.
  repeat (destruct (_ && _)%bool; [split; discriminate|]).
  split; discriminate.
Qed.

Lemma score_is_weighted_average_witness :
  row_body Fixture.encode Fixture.cos_sim Fixture.relaxed Fixture.relaxed_emb
    Fixture.calm Fixture.relaxed_trace =
    (inr (if Py.Qgtb (weighted_average 0.8 0 0 0 0) 0
          then Some (entry Fixture.calm (weighted_average 0.8 0 0 0 0))
          else None),
     Fixture.relaxed_trace ++ ["back pain"; "anxiety"]) /\
  recommend_asanas Fixture.encode Fixture.cos_sim [Fixture.calm]
    Fixture.relaxed [] =
    (inr [ {| name := "Sukhasana";
              score := 200 # 1000;
              benefits := "calms mind";
              contraindications := "knee injury" |} ],
     Fixture.relaxed_trace ++ ["back pain"; "anxiety"]).
Proof.
  destruct (score_is_weighted_average Fixture.encode Fixture.cos_sim
              Fixture.relaxed Fixture.relaxed_emb Fixture.calm
              [] Fixture.relaxed_trace
              (Fixture.relaxed_trace ++ ["back pain"; "anxiety"])
              0.8 0 0 0 0 eq_refl eq_refl eq_refl eq_refl eq_refl eq_refl)
    as [Hrow Hrequest].
  split; [exact Hrow|].
  apply Hrequest; try reflexivity.
  repeat split; discriminate.
Defined.



(** An embedder that sees case separates the two readings of the semantic
    test: the phrase "Knee" has cosine 0.9 with the row's contraindications,
    but the engine embeds "knee", whose cosine is 0, and the row is not
    excluded. *)
Lemma exclusion_embeds_the_folded_phrase :
  ~ exclusion_criterion Fixture.encode Fixture.cos_total
      (fun text => text) Fixture.cos_table (fun ph => ph)
      Fixture.capital_knee Fixture.joints [].
Proof.
  intros [_ H].
  assert (E : fst (discard_loop Fixture.encode Fixture.cos_total
                     (Py.lower (Contraindications Fixture.joints))
                     (Contraindications_emb Fixture.joints)
                     (physical_issues Fixture.capital_knee
                        ++ mental_issues Fixture.capital_knee) []) = inr true).
  { apply H. exists "Knee". split; [left; reflexivity|right; reflexivity]. }
  vm_compute in E. discriminate.
Qed.


Lemma output_capped_and_sorted_witness :
  exists out,
    fst (recommend_asanas Fixture.encode Fixture.cos_sim Fixture.long_catalog
           Fixture.relaxed []) = inr out /\
    List.length out = 10%nat /\
    (List.length out <= 10)%nat /\
    Sorted score_ge out /\
    (forall i a b,
       nth_error out i = Some a -> nth_error out (S i) = Some b ->
       score b <= score a).
Proof.
  eexists. split; [vm_compute; reflexivity|]. split; [reflexivity|].
  apply (output_capped_and_sorted Fixture.encode Fixture.cos_sim
           Fixture.long_catalog Fixture.relaxed []).
  vm_compute. reflexivity.
Defined.

(** C4 as stated fails: a weighted average of 1/4096 passes the cutoff and is
    returned with the score 0.000. *)
Lemma positive_score_may_round_to_zero :
  ~ returned_scores_positive Fixture.encode Fixture.cos_sim [Fixture.faint]
      Fixture.relaxed [].
Proof.
  intros H.
  destruct (H [entry Fixture.faint (1 # 4096)] (entry Fixture.faint (1 # 4096))
              eq_refl (or_introl eq_refl)) as [Hpos _].
  vm_compute in Hpos. discriminate.
Qed.

Lemma returned_score_is_rounded_average_witness :
  fst (recommend_asanas Fixture.encode Fixture.cos_sim [Fixture.faint]
         Fixture.relaxed []) = inr [entry Fixture.faint (1 # 4096)] /\
  exists ue r c1 c2 c3 c4 c5,
    fst (query_embeddings Fixture.encode Fixture.relaxed []) = inr ue /\
    In r [Fixture.faint] /\
    Fixture.cos_sim (emb_goals ue) (Benefits_emb r) = inr c1 /\
    Fixture.cos_sim (emb_physical_issues ue) (Benefits_emb r) = inr c2 /\
    Fixture.cos_sim (emb_mental_issues ue) (Benefits_emb r) = inr c3 /\
    Fixture.cos_sim (emb_physical_issues ue)
      (Targeted_Physical_Problems_emb r) = inr c4 /\
    Fixture.cos_sim (emb_mental_issues ue)
      (Targeted_Mental_Problems_emb r) = inr c5 /\
    0 < weighted_average c1 c2 c3 c4 c5 /\
    entry Fixture.faint (1 # 4096) = entry r (weighted_average c1 c2 c3 c4 c5) /\
    score (entry Fixture.faint (1 # 4096))
      = Py.round (weighted_average c1 c2 c3 c4 c5) 3 /\
    score (entry Fixture.faint (1 # 4096)) - (1 # 2000)
      <= weighted_average c1 c2 c3 c4 c5 /\
    weighted_average c1 c2 c3 c4 c5
      <= score (entry Fixture.faint (1 # 4096)) + (1 # 2000) /\
    0 <= score (entry Fixture.faint (1 # 4096)) /\
    weighted_average c1 c2 c3 c4 c5 <= 1 /\
    score (entry Fixture.faint (1 # 4096)) <= 1.
Proof.
  split; [reflexivity|].
  destruct (returned_score_is_rounded_average Fixture.encode Fixture.cos_sim
              [Fixture.faint] Fixture.relaxed []
              [entry Fixture.faint (1 # 4096)] (entry Fixture.faint (1 # 4096))
              eq_refl (or_introl eq_refl))
    as (ue & r & c1 & c2 & c3 & c4 & c5 & Hq & Hr & H1 & H2 & H3 & H4 & H5
        & Hpos & He & Hs & Hn1 & Hn2 & H0 & Hle).
  exists ue, r, c1, c2, c3, c4, c5.
  repeat (split; [assumption|]).
  apply Hle.
  - exact (proj2 (fixture_cosines_bounded _ _ _ H1)).
  - exact (proj2 (fixture_cosines_bounded _ _ _ H2)).
  - exact (proj2 (fixture_cosines_bounded _ _ _ H3)).
  - exact (proj2 (fixture_cosines_bounded _ _ _ H4)).
  - exact (proj2 (fixture_cosines_bounded _ _ _ H5)).
Defined.

Lemma invalid_profile_rejected_before_encoding_witness :
  (goals Fixture.no_goals = [] \/ physical_issues Fixture.no_goals = []
   \/ mental_issues Fixture.no_goals = []) /\
  recommend_asanas Fixture.encode Fixture.cos_sim Fixture.catalog
    Fixture.no_goals [] = (inl (ValueError missing_fields), []) /\
  get_recommendations Fixture.encode Fixture.cos_sim Fixture.catalog
    Fixture.no_goals []
    = (inl {| status_code := 400; detail := missing_fields |}, []).
Proof.
  split; [left; reflexivity|].
  apply (invalid_profile_rejected_before_encoding Fixture.encode
           Fixture.cos_sim Fixture.catalog Fixture.no_goals []).
  left. reflexivity.
Defined.

Lemma faulty_item_is_skipped_witness :
  fst (row_body Fixture.encode Fixture.cos_sim Fixture.relaxed
         Fixture.relaxed_emb Fixture.broken Fixture.relaxed_trace)
    = inl (OtherError "shape mismatch") /\
  fst (recommend_asanas Fixture.encode Fixture.cos_sim
         ([Fixture.mild1; Fixture.calm] ++ Fixture.broken
            :: [Fixture.mild2; Fixture.strong]) Fixture.relaxed [])
    = inr [entry Fixture.calm 0.2; entry Fixture.strong 0.15;
           entry Fixture.mild1 0.1; entry Fixture.mild2 0.1] /\
  fst (try_row Fixture.encode Fixture.cos_sim Fixture.relaxed
         Fixture.relaxed_emb Fixture.broken Fixture.relaxed_trace)
    = inr None /\
  exists os1 os2,
    Forall2 (body_outcome Fixture.encode Fixture.cos_sim Fixture.relaxed
               Fixture.relaxed_emb) [Fixture.mild1; Fixture.calm] os1 /\
    Forall2 (body_outcome Fixture.encode Fixture.cos_sim Fixture.relaxed
               Fixture.relaxed_emb) [Fixture.mild2; Fixture.strong] os2 /\
    (forall r' t'' rec,
       In r' ([Fixture.mild1; Fixture.calm]
                ++ [Fixture.mild2; Fixture.strong]) ->
       fst (row_body Fixture.encode Fixture.cos_sim Fixture.relaxed
              Fixture.relaxed_emb r' t'') = inr (Some rec) ->
       In rec (somes os1 ++ somes os2)) /\
    fst (recommend_asanas Fixture.encode Fixture.cos_sim
           ([Fixture.mild1; Fixture.calm] ++ Fixture.broken
              :: [Fixture.mild2; Fixture.strong]) Fixture.relaxed [])
      = inr (firstn 10 (Py.sorted_reverse score (somes os1 ++ somes os2))) /\
    fst (recommend_asanas Fixture.encode Fixture.cos_sim
           ([Fixture.mild1; Fixture.calm] ++ [Fixture.mild2; Fixture.strong])
           Fixture.relaxed [])
      = inr (firstn 10 (Py.sorted_reverse score (somes os1 ++ somes os2))).
Proof.
  split; [reflexivity|]. split; [reflexivity|].
  apply (faulty_item_is_skipped Fixture.encode Fixture.cos_sim
           [Fixture.mild1; Fixture.calm] [Fixture.mild2; Fixture.strong]
           Fixture.broken Fixture.relaxed [] Fixture.relaxed_trace
           Fixture.relaxed_trace Fixture.relaxed_emb
           (OtherError "shape mismatch")).
  - intros t t' text. reflexivity.
  - repeat split; discriminate.
  - reflexivity.
  - reflexivity.
Defined.

Lemma no_candidates_is_success_witness :
  valid Fixture.knee_injury /\
  exists t2,
    recommend_asanas Fixture.encode Fixture.cos_sim [Fixture.calm]
      Fixture.knee_injury [] = (inr [], t2) /\
    get_recommendations Fixture.encode Fixture.cos_sim [Fixture.calm]
      Fixture.knee_injury [] = (inr empty_response, t2) /\
    status empty_response = "success".
Proof.
  split; [repeat split; discriminate|].
  apply (no_candidates_is_success Fixture.encode Fixture.cos_sim
           [Fixture.calm] Fixture.knee_injury []
           ["relax"; "Knee Injury"; "anxiety"]
           {| emb_goals := "relax";
              emb_physical_issues := "Knee Injury";
              emb_mental_issues := "anxiety" |}).
  - repeat split; discriminate.
  - reflexivity.
  - intros r [<-|[]]. right. exists "Knee Injury".
    split; [left; reflexivity|reflexivity].
Defined.

Lemma recommend_is_repeatable_witness :
  deterministic Fixture.encode /\
  fst (recommend_asanas Fixture.encode Fixture.cos_sim Fixture.catalog
         Fixture.relaxed []) =
    fst (recommend_asanas Fixture.encode Fixture.cos_sim Fixture.catalog
           Fixture.relaxed ["an earlier request"]) /\
  fst (recommend_asanas Fixture.encode Fixture.cos_sim Fixture.catalog
         Fixture.relaxed
         (snd (recommend_asanas Fixture.encode Fixture.cos_sim Fixture.catalog
                 Fixture.relaxed []))) =
    fst (recommend_asanas Fixture.encode Fixture.cos_sim Fixture.catalog
           Fixture.relaxed []) /\
  fst (get_recommendations Fixture.encode Fixture.cos_sim Fixture.catalog
         Fixture.relaxed
         (snd (get_recommendations Fixture.encode Fixture.cos_sim
                 Fixture.catalog Fixture.relaxed []))) =
    fst (get_recommendations Fixture.encode Fixture.cos_sim Fixture.catalog
           Fixture.relaxed []).
Proof.
  split; [intros t t' text; reflexivity|].
  apply (recommend_is_repeatable Fixture.encode Fixture.cos_sim
           Fixture.catalog Fixture.relaxed [] ["an earlier request"]).
  intros t t' text. reflexivity.
Defined.

Lemma ties_keep_catalog_order_witness :
  exists out,
    fst (recommend_asanas Fixture.encode Fixture.cos_sim Fixture.long_catalog
           Fixture.relaxed []) = inr out /\
    exists ue os,
      fst (query_embeddings Fixture.encode Fixture.relaxed []) = inr ue /\
      Forall2 (outcome Fixture.encode Fixture.cos_sim Fixture.relaxed ue)
        Fixture.long_catalog os /\
      forall v, exists k,
        with_score v out = firstn k (with_score v (somes os)).
Proof.
  eexists. split; [vm_compute; reflexivity|].
  apply (ties_keep_catalog_order Fixture.encode Fixture.cos_sim
           Fixture.long_catalog Fixture.relaxed []).
  vm_compute. reflexivity.
Defined.

Lemma empty_phrase_excludes_every_item_witness :
  valid Fixture.blank_issue /\
  (In "" (physical_issues Fixture.blank_issue)
   \/ In "" (mental_issues Fixture.blank_issue)) /\
  (forall r : row Fixture.Vec,
     Py.contains (Py.lower "") (Py.lower (Contraindications r)) = true) /\
  (forall (r : row Fixture.Vec) t',
     fst (discard_loop Fixture.encode Fixture.cos_sim
            (Py.lower (Contraindications r)) (Contraindications_emb r)
            (physical_issues Fixture.blank_issue
               ++ mental_issues Fixture.blank_issue) t') <> inr false) /\
  (forall (r : row Fixture.Vec) t',
     fst (try_row Fixture.encode Fixture.cos_sim Fixture.blank_issue
            {| emb_goals := "relax";
               emb_physical_issues := "";
               emb_mental_issues := "anxiety" |} r t') = inr None) /\
  exists t2,
    recommend_asanas Fixture.encode Fixture.cos_sim Fixture.catalog
      Fixture.blank_issue [] = (inr [], t2) /\
    get_recommendations Fixture.encode Fixture.cos_sim Fixture.catalog
      Fixture.blank_issue [] = (inr empty_response, t2).
Proof.
  split; [repeat split; discriminate|].
  split; [left; left; reflexivity|].
  apply (empty_phrase_excludes_every_item Fixture.encode Fixture.cos_sim
           Fixture.catalog Fixture.blank_issue [] ["relax"; ""; "anxiety"]).
  - repeat split; discriminate.
  - left. left. reflexivity.
  - reflexivity.
Defined.

(** ** Further lemmas: the trace of embedder calls *)

Section Calls.
Context {Vec : Type}.
Variable encode : trace -> string -> exn + Vec.
Variable cos_sim : Vec -> Vec -> exn + Q.

Lemma discard_loop_calls ct ce phrases :
  forall t, exists k,
    (k <= List.length phrases)%nat /\
    snd (discard_loop encode cos_sim ct ce phrases t)
      = t ++ map Py.lower (firstn k phrases) /\
    (fst (discard_loop encode cos_sim ct ce phrases t) = inr false ->
     k = List.length phrases).
Proof.
  induction phrases as [|i phrases IH]; intros t.
  - exists 0%nat. simpl. rewrite app_nil_r. auto.
  - simpl discard_loop.
    destruct (Py.contains (Py.lower i) ct).
    + exists 0%nat. simpl. rewrite app_nil_r.
      split; [lia|]. split; [reflexivity|discriminate].
    + unfold bind, model_encode, cos, lift.
      destruct (encode t (Py.lower i)) as [e|v].
      { exists 1%nat. simpl. split; [lia|]. split; [reflexivity|discriminate]. }
      destruct (cos_sim v ce) as [e|c].
      { exists 1%nat. simpl. split; [lia|]. split; [reflexivity|discriminate]. }
      destruct (Py.Qgtb c 0.25).
      { exists 1%nat. simpl. split; [lia|]. split; [reflexivity|discriminate]. }
      destruct (IH (t ++ [Py.lower i])) as (k & Hk & Hs & Hf).
      exists (S k). simpl. split; [lia|]. split.
      * rewrite Hs, <- app_assoc. reflexivity.
      * intros H. f_equal. auto.
Qed.

Lemma row_body_snd p ue r t :
  snd (row_body encode cos_sim p ue r t) =
  snd (discard_loop encode cos_sim (Py.lower (Contraindications r))
         (Contraindications_emb r)
         (physical_issues p ++ mental_issues p) t).
Proof.
  unfold row_body, bind, cos, lift.
  destruct (discard_loop encode cos_sim _ _ _ t) as [[e|[|]] t1];
    try reflexivity.
  destruct (cos_sim _ _); [reflexivity|].
  destruct (cos_sim _ _); [reflexivity|].
  destruct (cos_sim _ _); [reflexivity|].
  destruct (cos_sim _ _); [reflexivity|].
  destruct (cos_sim _ _); [reflexivity|].
  destruct (Py.Qgtb _ _); reflexivity.
Qed.

Lemma try_row_snd p ue r t :
  snd (try_row encode cos_sim p ue r t) = snd (row_body encode cos_sim p ue r t).
Proof.
  unfold try_row, try_except.
  destruct (row_body encode cos_sim p ue r t) as [[e|o] t1]; reflexivity.
Qed.

Lemma In_firstn_lower k (phrases : list string) c :
  In c (map Py.lower (firstn k phrases)) -> In c (map Py.lower phrases).
Proof.
  intros H. apply in_map_iff in H. destruct H as (x & <- & Hx).
  apply in_map. eapply In_firstn_In, Hx.
Qed.

Lemma for_rows_calls p ue rows :
  forall acc t, exists calls,
    snd (for_rows encode cos_sim p ue rows acc t) = t ++ calls /\
    Forall (fun c => In c (map Py.lower (issues p))) calls /\
    (List.length calls <= List.length rows * List.length (issues p))%nat.
Proof.
  induction rows as [|r rows IH]; intros acc t.
  - exists []. simpl. rewrite app_nil_r. split; [reflexivity|].
    split; [constructor|lia].
  - simpl for_rows. unfold bind.
    pose proof (try_row_snd p ue r t) as Hs. rewrite row_body_snd in Hs.
    destruct (discard_loop_calls (Py.lower (Contraindications r))
                (Contraindications_emb r)
                (physical_issues p ++ mental_issues p) t) as (k & Hk & Hd & _).
    rewrite Hd in Hs.
    destruct (try_row_total encode cos_sim p ue r t) as (o & t1 & E).
    rewrite E in Hs |- *. simpl in Hs. subst t1.
    destruct (IH (match o with Some rec => acc ++ [rec] | None => acc end)
                (t ++ map Py.lower (firstn k (physical_issues p ++ mental_issues p))))
      as (calls & Hc & Hall & Hlen).
    exists (map Py.lower (firstn k (physical_issues p ++ mental_issues p)) ++ calls).
    split; [rewrite Hc, app_assoc; reflexivity|]. split.
    + apply Forall_app. split; [|exact Hall].
      apply Forall_forall. intros c Hin. eapply In_firstn_lower, Hin.
    + rewrite length_app, length_map, length_firstn. unfold issues in *.
      simpl. lia.
Qed.

Lemma query_embeddings_calls p t :
  exists k,
    (1 <= k <= 3)%nat /\
    snd (query_embeddings encode p t) = t ++ firstn k (query_texts p) /\
    (forall ue, fst (query_embeddings encode p t) = inr ue -> k = 3%nat).
Proof.
  unfold query_embeddings, bind, model_encode, query_texts.
  destruct (encode t _) as [e|g].
  { exists 1%nat. simpl. split; [lia|]. split; [reflexivity|discriminate]. }
  destruct (encode (t ++ _) _) as [e|ph].
  { exists 2%nat. simpl. split; [lia|]. split; [|discriminate].
    rewrite <- app_assoc. reflexivity. }
  destruct (encode ((t ++ _) ++ _) _) as [e|m].
  { exists 3%nat. simpl. split; [lia|]. split; [|discriminate].
    rewrite <- !app_assoc. reflexivity. }
  exists 3%nat. simpl. split; [lia|]. split; [|reflexivity].
  rewrite <- !app_assoc. reflexivity.
Qed.

Lemma recommend_asanas_snd_failed df p t e :
  valid p ->
  fst (query_embeddings encode p t) = inl e ->
  recommend_asanas encode cos_sim df p t =
    (inl e, snd (query_embeddings encode p t)).
Proof.
  intros Hv H. rewrite (recommend_asanas_valid encode cos_sim df p t Hv).
  destruct (query_embeddings encode p t) as [[e'|ue] t1]; simpl in *;
    [congruence|discriminate].
Qed.

Lemma get_recommendations_snd df p t :
  snd (get_recommendations encode cos_sim df p t) =
  snd (recommend_asanas encode cos_sim df p t).
Proof.
  unfold get_recommendations.
  destruct (recommend_asanas encode cos_sim df p t) as [[[m|m]|out] t1];
    try reflexivity.
  destruct (negb (Py.truthy out)); reflexivity.
Qed.

Lemma query_embeddings_failed p t e :
  fst (query_embeddings encode p t) = inl e ->
  exists k text,
    (k < 3)%nat /\
    nth_error (query_texts p) k = Some text /\
    encode (t ++ firstn k (query_texts p)) text = inl e /\
    snd (query_embeddings encode p t) = t ++ firstn (S k) (query_texts p).
Proof.
  unfold query_embeddings, bind, model_encode, query_texts.
  destruct (encode t (Py.join " " (goals p))) as [e1|g] eqn:E1.
  { intros H. injection H as <-. exists 0%nat, (Py.join " " (goals p)).
    simpl. rewrite app_nil_r. auto. }
  destruct (encode (t ++ [Py.join " " (goals p)])
              (Py.join " " (physical_issues p))) as [e2|ph] eqn:E2.
  { intros H. injection H as <-.
    exists 1%nat, (Py.join " " (physical_issues p)). simpl.
    rewrite <- app_assoc. auto. }
  destruct (encode ((t ++ [Py.join " " (goals p)])
                      ++ [Py.join " " (physical_issues p)])
              (Py.join " " (mental_issues p))) as [e3|m] eqn:E3.
  { intros H. injection H as <-.
    exists 2%nat, (Py.join " " (mental_issues p)). simpl.
    rewrite <- !app_assoc in *. simpl in *. auto. }
  discriminate.
Qed.

Lemma recommend_fails_iff df p t e :
  valid p ->
  fst (recommend_asanas encode cos_sim df p t) = inl e <->
  fst (query_embeddings encode p t) = inl e.
Proof.
  intros Hv. rewrite (recommend_asanas_valid encode cos_sim df p t Hv).
  destruct (query_embeddings encode p t) as [[e'|ue] t1]; simpl;
    [split; intros H; injection H as <-; reflexivity|].
  destruct (for_rows_outcomes encode cos_sim p ue df [] t1) as (os & t2 & E & _).
  rewrite E. simpl. split; discriminate.
Qed.

Lemma recommend_asanas_snd_ok df p t ue t1 :
  valid p ->
  query_embeddings encode p t = (inr ue, t1) ->
  snd (recommend_asanas encode cos_sim df p t) =
  snd (for_rows encode cos_sim p ue df [] t1).
Proof.
  intros Hv Hq. rewrite (recommend_asanas_valid encode cos_sim df p t Hv), Hq.
  destruct (for_rows encode cos_sim p ue df [] t1) as [[e|recs] t2]; reflexivity.
Qed.

Lemma get_recommendations_fst_cases df p t :
  fst (get_recommendations encode cos_sim df p t) =
  match fst (recommend_asanas encode cos_sim df p t) with
  | inl (ValueError m) => inl {| status_code := 400; detail := m |}
  | inl (OtherError _) => inl {| status_code := 500; detail := internal_error |}
  | inr [] => inr empty_response
  | inr (x :: out) =>
      inr {| recommended_asanas := x :: out;
             message := None;
             total_recommendations := Some (List.length (x :: out));
             status := "success" |}
  end.
Proof.
  unfold get_recommendations.
  destruct (recommend_asanas encode cos_sim df p t) as [[[m|m]|[|x out]] t1];
    reflexivity.
Qed.

(** X1.  For a profile that passes validation, the request fails exactly
    when one of the three query-embedding calls raises, with that exception;
    the failing call is the last call made: no later query text and no issue
    phrase is embedded, whatever the catalog. *)
Theorem request_fails_only_on_query_embedding
    (df : list (row Vec)) (p : UserInput) (t : trace) :
  valid p ->
  (forall e,
     fst (recommend_asanas encode cos_sim df p t) = inl e <->
     fst (query_embeddings encode p t) = inl e) /\
  (forall e,
     fst (recommend_asanas encode cos_sim df p t) = inl e ->
     exists k text,
       (k < 3)%nat /\
       nth_error (query_texts p) k = Some text /\
       encode (t ++ firstn k (query_texts p)) text = inl e /\
       snd (recommend_asanas encode cos_sim df p t)
         = t ++ firstn (S k) (query_texts p)).
Proof.
  intros Hv. split; [intros e; apply recommend_fails_iff, Hv|].
  intros e H. apply (recommend_fails_iff df p t e Hv) in H.
  destruct (query_embeddings_failed p t e H) as (k & text & Hk & Hn & He & Hs).
  exists k, text. rewrite (recommend_asanas_snd_failed df p t e Hv H). auto.
Qed.

(** X2.  For a profile that passes validation, the handler answers 400
    with the message [m] exactly when a query-embedding call raised
    [ValueError(m)], and 500 exactly when such a call raised any other
    exception; the detail of a 500 is a fixed text that does not carry the
    exception's message. *)
Theorem handler_error_status
    (df : list (row Vec)) (p : UserInput) (t : trace) :
  valid p ->
  (forall m,
     fst (query_embeddings encode p t) = inl (ValueError m) <->
     fst (get_recommendations encode cos_sim df p t)
       = inl {| status_code := 400; detail := m |}) /\
  ((exists m, fst (query_embeddings encode p t) = inl (OtherError m)) <->
   fst (get_recommendations encode cos_sim df p t)
     = inl {| status_code := 500; detail := internal_error |}) /\
  (forall h,
     fst (get_recommendations encode cos_sim df p t) = inl h ->
     h = {| status_code := 500; detail := internal_error |} \/
     exists m, h = {| status_code := 400; detail := m |}).
Proof.
  intros Hv. rewrite get_recommendations_fst_cases.
  pose proof (fun e => recommend_fails_iff df p t e Hv) as Hiff.
  destruct (fst (recommend_asanas encode cos_sim df p t))
    as [[m0|m0]|[|x out]] eqn:E.
  - pose proof (proj1 (Hiff (ValueError m0)) eq_refl) as Hq. rewrite Hq.
    split; [|split].
    + intros m. split; intros H; injection H as <-; reflexivity.
    + split; [intros [m H]; discriminate|discriminate].
    + intros h H. injection H as <-. right. eauto.
  - pose proof (proj1 (Hiff (OtherError m0)) eq_refl) as Hq. rewrite Hq.
    split; [|split].
    + intros m. split; discriminate.
    + split; [reflexivity|eauto].
    + intros h H. injection H as <-. left. reflexivity.
  - split; [|split].
    + intros m. split; [|discriminate].
      intros H. apply Hiff in H. discriminate.
    + split; [|discriminate].
      intros [m H]. apply Hiff in H. discriminate.
    + discriminate.
  - split; [|split].
    + intros m. split; [|discriminate].
      intros H. apply Hiff in H. discriminate.
    + split; [|discriminate].
      intros [m H]. apply Hiff in H. discriminate.
    + discriminate.
Qed.

(** X3.  A successful answer of the handler has status "success" and
    carries the list returned by [recommend_asanas], of at most 10 entries:
    either the list is empty and the answer is the fixed "no suitable poses"
    message without a count, or it is non-empty, without message, and
    [total_recommendations] is its length. *)
Theorem handler_success_shape
    (df : list (row Vec)) (p : UserInput) (t : trace) (resp : response) :
  fst (get_recommendations encode cos_sim df p t) = inr resp ->
  status resp = "success" /\
  fst (recommend_asanas encode cos_sim df p t)
    = inr (recommended_asanas resp) /\
  (List.length (recommended_asanas resp) <= 10)%nat /\
  ((recommended_asanas resp = [] /\ resp = empty_response) \/
   (recommended_asanas resp <> [] /\
    message resp = None /\
    total_recommendations resp
      = Some (List.length (recommended_asanas resp)))).
Proof.
  rewrite get_recommendations_fst_cases.
  destruct (fst (recommend_asanas encode cos_sim df p t))
    as [[m0|m0]|out] eqn:E; try discriminate.
  assert (Hlen : (List.length out <= 10)%nat).
  { apply recommend_asanas_inr in E.
    destruct E as (_ & ue & t1 & os & _ & _ & ->). apply firstn_le_length. }
  destruct out as [|x out]; intros H; injection H as <-; simpl.
  - split; [reflexivity|]. split; [reflexivity|]. split; [lia|].
    left. split; reflexivity.
  - split; [reflexivity|]. split; [reflexivity|]. split; [exact Hlen|].
    right. split; [discriminate|]. split; reflexivity.
Qed.

(** X4.  The handler and [recommend_asanas] only append to the trace of
    embedder calls, the same calls for both, and a request makes at most
    3 + (number of rows) * (number of issue phrases) calls. *)
Theorem embedder_call_budget
    (df : list (row Vec)) (p : UserInput) (t : trace) :
  exists calls,
    snd (recommend_asanas encode cos_sim df p t) = t ++ calls /\
    snd (get_recommendations encode cos_sim df p t) = t ++ calls /\
    (List.length calls
       <= 3 + List.length df * List.length (issues p))%nat.
Proof.
  rewrite get_recommendations_snd.
  destruct (valid_dec p) as [Hv|Hi].
  - destruct (query_embeddings encode p t) as [[e|ue] t1] eqn:Hq.
    + destruct (query_embeddings_calls p t) as (k & Hk & Hs & _).
      exists (firstn k (query_texts p)).
      rewrite (recommend_asanas_snd_failed df p t e Hv); [|rewrite Hq; reflexivity].
      simpl. rewrite Hs. repeat split; auto.
      rewrite length_firstn. simpl. lia.
    + destruct (query_embeddings_calls p t) as (k & Hk & Hs & H3).
      rewrite Hq in Hs, H3. simpl in Hs. rewrite (H3 ue eq_refl) in Hs.
      destruct (for_rows_calls p ue df [] t1) as (calls & Hc & _ & Hlen).
      exists (query_texts p ++ calls).
      rewrite (recommend_asanas_snd_ok df p t ue t1 Hv Hq), Hc, Hs.
      simpl. rewrite <- !app_assoc. simpl. repeat split; auto. lia.
  - exists []. rewrite (recommend_asanas_invalid encode cos_sim df p t Hi).
    simpl. rewrite app_nil_r. repeat split; auto. lia.
Qed.

(** X5.  Once the three query texts (the space-joined goals, physical
    issues and mental issues, in that order) are embedded, every further
    embedder call of the request is made on a case-folded issue phrase:
    no catalog text is ever embedded. *)
Theorem only_queries_and_folded_phrases_are_embedded
    (df : list (row Vec)) (p : UserInput) (t : trace) (ue : user_emb Vec) :
  valid p ->
  fst (query_embeddings encode p t) = inr ue ->
  exists calls,
    snd (recommend_asanas encode cos_sim df p t)
      = t ++ query_texts p ++ calls /\
    Forall (fun c => In c (map Py.lower (issues p))) calls.
Proof.
  intros Hv Hq.
  destruct (query_embeddings encode p t) as [[e|ue'] t1] eqn:Hq';
    [discriminate|]. simpl in Hq. injection Hq as ->.
  destruct (query_embeddings_calls p t) as (k & Hk & Hs & H3).
  rewrite Hq' in Hs, H3. simpl in Hs. rewrite (H3 ue eq_refl) in Hs.
  destruct (for_rows_calls p ue df [] t1) as (calls & Hc & Hall & _).
  exists calls.
  rewrite (recommend_asanas_snd_ok df p t ue t1 Hv Hq'), Hc, Hs.
  simpl. rewrite <- !app_assoc. auto.
Qed.

(** X6.  A row that passes the exclusion filter costs exactly one embedder
    call per issue phrase, on the case-folded phrases in order (physical
    issues first); computing its score makes no call. *)
Theorem surviving_row_costs_one_call_per_phrase
    (p : UserInput) (ue : user_emb Vec) (r : row Vec) (t : trace) :
  fst (discard_loop encode cos_sim (Py.lower (Contraindications r))
         (Contraindications_emb r) (issues p) t) = inr false ->
  snd (row_body encode cos_sim p ue r t) = t ++ map Py.lower (issues p) /\
  snd (try_row encode cos_sim p ue r t) = t ++ map Py.lower (issues p).
Proof.
  intros H. rewrite try_row_snd, row_body_snd.
  destruct (discard_loop_calls (Py.lower (Contraindications r))
              (Contraindications_emb r) (issues p) t) as (k & Hk & Hs & Hf).
  unfold issues in *. rewrite Hs, (Hf H), firstn_all. auto.
Qed.

(** X7.  When an issue phrase occurs, case-folded, in the contraindications
    text, neither that phrase nor any phrase after it is embedded: the calls
    of the exclusion loop are the case-folded phrases of an initial segment
    of the phrases before it.  When it is the first phrase, the row is
    discarded without any call. *)
Theorem lexical_match_stops_embedding
    (ct : string) (ce : Vec) (pre : list string) (ph : string)
    (post : list string) (t : trace) :
  Py.contains (Py.lower ph) ct = true ->
  (exists k,
     (k <= List.length pre)%nat /\
     snd (discard_loop encode cos_sim ct ce (pre ++ ph :: post) t)
       = t ++ map Py.lower (firstn k pre)) /\
  discard_loop encode cos_sim ct ce (ph :: post) t = (inr true, t).
Proof.
  intros Hc. split; [|simpl; rewrite Hc; reflexivity].
  revert t. induction pre as [|i pre IH]; intros t.
  - exists 0%nat. simpl. rewrite Hc, app_nil_r. auto.
  - simpl app. simpl discard_loop.
    destruct (Py.contains (Py.lower i) ct).
    + exists 0%nat. simpl. rewrite app_nil_r. split; [lia|reflexivity].
    + unfold bind, model_encode, cos, lift.
      destruct (encode t (Py.lower i)) as [e|v].
      { exists 1%nat. simpl. split; [lia|reflexivity]. }
      destruct (cos_sim v ce) as [e|c].
      { exists 1%nat. simpl. split; [lia|reflexivity]. }
      destruct (Py.Qgtb c 0.25).
      { exists 1%nat. simpl. split; [lia|reflexivity]. }
      destruct (IH (t ++ [Py.lower i])) as (k & Hk & Hs).
      exists (S k). simpl. split; [lia|].
      rewrite Hs, <- app_assoc. reflexivity.
Qed.

(** *** Ranking *)

Lemma In_skipn_In {A} (x : A) n l : In x (skipn n l) -> In x l.
Proof.
  revert n. induction l as [|a l IH]; intros [|n]; simpl; try tauto.
  intros H. right. eauto.
Qed.

Lemma StronglySorted_firstn_skipn {A} (R : A -> A -> Prop) l :
  StronglySorted R l ->
  forall n a b, In a (firstn n l) -> In b (skipn n l) -> R a b.
Proof.
  induction 1 as [|x l Hs IH Hall]; intros [|n] a b Ha Hb; simpl in *;
    try tauto.
  destruct Ha as [<-|Ha].
  - rewrite Forall_forall in Hall. apply Hall. eapply In_skipn_In, Hb.
  - eapply IH; eauto.
Qed.

Lemma somes_length {A} (os : list (option A)) :
  (List.length (somes os) <= List.length os)%nat.
Proof. induction os as [|[x|] os IH]; simpl; lia. Qed.

(** X8.  The returned list is the top of the ranking: the candidates are
    the returned entries together with the cut ones, the number of returned
    entries is the smaller of 10 and the number of candidates, and no cut
    candidate has a score above that of a returned entry. *)
Theorem returned_entries_are_the_best
    (df : list (row Vec)) (p : UserInput) (t : trace)
    (out : list recommendation) :
  fst (recommend_asanas encode cos_sim df p t) = inr out ->
  exists ue os cut,
    fst (query_embeddings encode p t) = inr ue /\
    Forall2 (outcome encode cos_sim p ue) df os /\
    Permutation (somes os) (out ++ cut) /\
    List.length out = Nat.min 10 (List.length (somes os)) /\
    forall a b, In a out -> In b cut -> score b <= score a.
Proof.
  intros H. apply recommend_asanas_inr in H.
  destruct H as (_ & ue & t1 & os & Hq & HF & ->).
  exists ue, os, (skipn 10 (Py.sorted_reverse score (somes os))).
  rewrite Hq. split; [reflexivity|]. split; [exact HF|]. split; [|split].
  - rewrite firstn_skipn. apply sorted_reverse_perm.
  - rewrite length_firstn, sorted_reverse_length. reflexivity.
  - intros a b Ha Hb.
    exact (StronglySorted_firstn_skipn _ _
             (sorted_reverse_sorted score (somes os)) 10 a b Ha Hb).
Qed.

(** X9.  Every returned entry comes from a row of the catalog: its name,
    benefits and contraindications are the row's texts, unchanged, and its
    score is a non-negative whole number of thousandths.  A row gives at
    most one entry, so the list is no longer than the catalog. *)
Theorem entries_pass_through_catalog_texts
    (df : list (row Vec)) (p : UserInput) (t : trace)
    (out : list recommendation) :
  fst (recommend_asanas encode cos_sim df p t) = inr out ->
  (List.length out <= List.length df)%nat /\
  forall rec, In rec out ->
    exists r z,
      In r df /\
      name rec = AName r /\
      benefits rec = Benefits r /\
      contraindications rec = Contraindications r /\
      score rec = z # 1000 /\ (0 <= z)%Z.
Proof.
  intros H. apply recommend_asanas_inr in H.
  destruct H as (_ & ue & t1 & os & Hq & HF & ->). split.
  - rewrite length_firstn, sorted_reverse_length.
    pose proof (somes_length os). rewrite (Forall2_length HF). lia.
  - intros rec Hin. apply In_output_In_candidates, In_somes in Hin.
    destruct (Forall2_In_r _ _ _ _ HF Hin) as (r & Hr & t' & Ht').
    apply try_row_some, row_body_some in Ht'.
    destruct Ht' as (c1 & c2 & c3 & c4 & c5 & _ & _ & _ & _ & _ & Hpos & ->).
    exists r, (Py.round_half_even (weighted_average c1 c2 c3 c4 c5 * 1000)).
    repeat (split; [solve [auto]|]).
    apply round_half_even_nonneg. lra.
Qed.

(** *** What the result depends on *)

Lemma row_body_issues p p' ue r t :
  issues p = issues p' ->
  row_body encode cos_sim p ue r t = row_body encode cos_sim p' ue r t.
Proof. unfold issues, row_body. intros ->. reflexivity. Qed.

Lemma for_rows_issues p p' ue rows :
  issues p = issues p' ->
  forall acc t,
    for_rows encode cos_sim p ue rows acc t =
    for_rows encode cos_sim p' ue rows acc t.
Proof.
  intros H. induction rows as [|r rows IH]; intros acc t; [reflexivity|].
  simpl. unfold bind, try_row, try_except.
  rewrite (row_body_issues p p' ue r t H).
  destruct (row_body encode cos_sim p' ue r t) as [[e|o] t1]; apply IH.
Qed.

(** X10.  The fields age, height, weight and level are not read: two
    profiles with the same goals, physical issues and mental issues get the
    same result and cause the same embedder calls, from [recommend_asanas]
    and from the handler. *)
Theorem unused_profile_fields
    (df : list (row Vec)) (p p' : UserInput) (t : trace) :
  goals p = goals p' ->
  physical_issues p = physical_issues p' ->
  mental_issues p = mental_issues p' ->
  recommend_asanas encode cos_sim df p t
    = recommend_asanas encode cos_sim df p' t /\
  get_recommendations encode cos_sim df p t
    = get_recommendations encode cos_sim df p' t.
Proof.
  intros Hg Hp Hm.
  assert (E : recommend_asanas encode cos_sim df p t
              = recommend_asanas encode cos_sim df p' t).
  { unfold recommend_asanas, try_except, query_embeddings, bind.
    rewrite Hg, Hp, Hm.
    destruct (negb (Py.truthy (goals p')) || negb (Py.truthy (physical_issues p'))
              || negb (Py.truthy (mental_issues p'))); [reflexivity|].
    destruct (model_encode encode _ t) as [[e|g] t1]; [reflexivity|].
    destruct (model_encode encode _ t1) as [[e|ph] t2]; [reflexivity|].
    destruct (model_encode encode _ t2) as [[e|m] t3]; [reflexivity|].
    unfold ret.
    rewrite (for_rows_issues p p'); [reflexivity|].
    unfold issues. now rewrite Hp, Hm. }
  split; [exact E|]. unfold get_recommendations. rewrite E. reflexivity.
Qed.

Lemma discard_loop_folded ct ce l :
  forall l' t,
    map Py.lower l = map Py.lower l' ->
    discard_loop encode cos_sim ct ce l t
      = discard_loop encode cos_sim ct ce l' t.
Proof.
  induction l as [|i l IH]; intros [|i' l'] t H;
    try discriminate; [reflexivity|].
  simpl in H. injection H as Hi Hl. simpl discard_loop. rewrite Hi.
  destruct (Py.contains (Py.lower i') ct); [reflexivity|].
  unfold bind, model_encode, cos, lift.
  destruct (encode t (Py.lower i')) as [e|v]; [reflexivity|].
  destruct (cos_sim v ce) as [e|c]; [reflexivity|].
  destruct (Py.Qgtb c 0.25); [reflexivity|]. apply IH, Hl.
Qed.

(** X11.  Evaluating a row does not see the case of the issue phrases: for
    two profiles whose issue phrases agree after case folding, the exclusion
    loop gives the same flag and makes the same embedder calls, and the row
    contributes the same entry (given the same query embeddings). *)
Theorem filter_ignores_phrase_case
    (p p' : UserInput) (ue : user_emb Vec) (r : row Vec) (t : trace) :
  map Py.lower (issues p) = map Py.lower (issues p') ->
  discard_loop encode cos_sim (Py.lower (Contraindications r))
    (Contraindications_emb r) (issues p) t
  = discard_loop encode cos_sim (Py.lower (Contraindications r))
      (Contraindications_emb r) (issues p') t /\
  row_body encode cos_sim p ue r t = row_body encode cos_sim p' ue r t /\
  try_row encode cos_sim p ue r t = try_row encode cos_sim p' ue r t.
Proof.
  intros H.
  pose proof (discard_loop_folded (Py.lower (Contraindications r))
                (Contraindications_emb r) (issues p) (issues p') t H) as E.
  assert (Er : row_body encode cos_sim p ue r t
               = row_body encode cos_sim p' ue r t).
  { unfold row_body, bind. unfold issues in E. rewrite E. reflexivity. }
  split; [exact E|]. split; [exact Er|].
  unfold try_row, try_except. rewrite Er. reflexivity.
Qed.

Lemma existsb_incl {A} (f : A -> bool) l l' :
  incl l l' -> existsb f l = true -> existsb f l' = true.
Proof.
  intros Hi H. apply existsb_exists in H. destruct H as (x & Hx & Hf).
  apply existsb_exists. exists x. auto.
Qed.

(** X12.  With a total embedder and cosine, whether a row is excluded
    depends only on the set of issue phrases: adding phrases can only turn
    the flag on, and two lists with the same phrases, in any order and
    multiplicity, give the same flag. *)
Theorem exclusion_depends_on_phrase_set
    (embed : string -> Vec) (cosv : Vec -> Vec -> Q)
    (ct : string) (ce : Vec) (l l' : list string) (t t' : trace) :
  (forall u text, encode u text = inr (embed text)) ->
  (forall a b, cos_sim a b = inr (cosv a b)) ->
  incl l l' ->
  (fst (discard_loop encode cos_sim ct ce l t) = inr true ->
   fst (discard_loop encode cos_sim ct ce l' t') = inr true) /\
  (incl l' l ->
   fst (discard_loop encode cos_sim ct ce l t) =
   fst (discard_loop encode cos_sim ct ce l' t')).
Proof.
  intros He Hc Hi.
  rewrite !(discard_loop_total encode cos_sim embed cosv _ _ _ He Hc).
  set (f := fun ph => Py.contains (Py.lower ph) ct
                      || Py.Qgtb (cosv (embed (Py.lower ph)) ce) 0.25).
  split.
  - intros H. injection H as H. f_equal. exact (existsb_incl f l l' Hi H).
  - intros Hi'. f_equal.
    destruct (existsb f l) eqn:E.
    + symmetry. exact (existsb_incl f l l' Hi E).
    + destruct (existsb f l') eqn:E'; [|reflexivity].
      rewrite (existsb_incl f l' l Hi' E') in E. discriminate.
Qed.

(** X13.  A row whose five cosines are all at most 0 is never recommended:
    whatever the exclusion filter does and from any trace, its body yields
    no entry, so the row contributes nothing. *)
Theorem nonpositive_cosines_are_never_recommended
    (p : UserInput) (ue : user_emb Vec) (r : row Vec) (c1 c2 c3 c4 c5 : Q) :
  cos_sim (emb_goals ue) (Benefits_emb r) = inr c1 ->
  cos_sim (emb_physical_issues ue) (Benefits_emb r) = inr c2 ->
  cos_sim (emb_mental_issues ue) (Benefits_emb r) = inr c3 ->
  cos_sim (emb_physical_issues ue) (Targeted_Physical_Problems_emb r) = inr c4 ->
  cos_sim (emb_mental_issues ue) (Targeted_Mental_Problems_emb r) = inr c5 ->
  c1 <= 0 -> c2 <= 0 -> c3 <= 0 -> c4 <= 0 -> c5 <= 0 ->
  (forall t rec, fst (row_body encode cos_sim p ue r t) <> inr (Some rec)) /\
  (forall t, fst (try_row encode cos_sim p ue r t) = inr None).
Proof.
  intros H1 H2 H3 H4 H5 L1 L2 L3 L4 L5.
  assert (Hbody : forall t rec,
            fst (row_body encode cos_sim p ue r t) <> inr (Some rec)).
  { intros t rec H. apply row_body_some in H.
    destruct H as (d1 & d2 & d3 & d4 & d5 & E1 & E2 & E3 & E4 & E5 & Hpos & _).
    rewrite H1 in E1. rewrite H2 in E2. rewrite H3 in E3. rewrite H4 in E4.
    rewrite H5 in E5.
    injection E1 as <-. injection E2 as <-. injection E3 as <-.
    injection E4 as <-. injection E5 as <-.
    unfold weighted_average, Qdiv in Hpos. change (/ 16) with (1 # 16) in Hpos.
    lra. }
  split; [exact Hbody|].
  intros t. rewrite try_row_fst. specialize (Hbody t).
  destruct (fst (row_body encode cos_sim p ue r t)) as [e|[rec|]];
    [reflexivity| |reflexivity].
  exfalso. exact (Hbody rec eq_refl).
Qed.

(** *** The order of the catalog *)

Lemma outcomes_exist p ue rows :
  exists os, Forall2 (outcome encode cos_sim p ue) rows os.
Proof.
  induction rows as [|r rows [os IH]]; [exists []; constructor|].
  destruct (try_row_total encode cos_sim p ue r []) as (o & t1 & E).
  exists (o :: os). constructor; [|exact IH]. exists []. now rewrite E.
Qed.

Lemma outcomes_perm p ue rows rows' :
  deterministic encode ->
  Permutation rows rows' ->
  forall os os',
    Forall2 (outcome encode cos_sim p ue) rows os ->
    Forall2 (outcome encode cos_sim p ue) rows' os' ->
    Permutation os os'.
Proof.
  intros Hdet HP.
  induction HP as [|r l l' HP IH|r1 r2 l|l l' l'' HP1 IH1 HP2 IH2];
    intros os os' H H'.
  - inversion H; inversion H'; subst. constructor.
  - inversion H as [|? o ? os1 Ho H1]; inversion H' as [|? o' ? os1' Ho' H1'];
      subst.
    rewrite (outcome_functional encode cos_sim p ue r o o' Hdet Ho Ho').
    apply perm_skip. apply IH; assumption.
  - inversion H as [|? o2 ? osa Ho2 Ha]; subst.
    inversion Ha as [|? o1 ? os1 Ho1 H1]; subst.
    inversion H' as [|? o1' ? osb Ho1' Hb]; subst.
    inversion Hb as [|? o2' ? os1' Ho2' H1']; subst.
    rewrite (outcome_functional encode cos_sim p ue r1 o1 o1' Hdet Ho1 Ho1').
    rewrite (outcome_functional encode cos_sim p ue r2 o2 o2' Hdet Ho2 Ho2').
    rewrite (outcomes_functional encode cos_sim p ue l Hdet _ _ H1 H1').
    apply perm_swap.
  - destruct (outcomes_exist p ue l') as [os1 H1].
    eapply perm_trans; [apply (IH1 os os1)|apply (IH2 os1 os')]; assumption.
Qed.

Lemma somes_perm {A} (os os' : list (option A)) :
  Permutation os os' -> Permutation (somes os) (somes os').
Proof.
  induction 1 as [|o l l' HP IH|o1 o2 l|l l' l'' HP1 IH1 HP2 IH2].
  - constructor.
  - destruct o; simpl; [apply perm_skip|]; exact IH.
  - destruct o1, o2; simpl; try reflexivity. apply perm_swap.
  - eapply perm_trans; eauto.
Qed.

Lemma StronglySorted_map {A B} (f : A -> B) (R : B -> B -> Prop) l :
  StronglySorted (fun a b => R (f a) (f b)) l -> StronglySorted R (map f l).
Proof.
  induction 1 as [|x l Hs IH Hall]; simpl; constructor; auto.
  rewrite Forall_forall in *. intros y Hy. apply in_map_iff in Hy.
  destruct Hy as (a & <- & Ha). auto.
Qed.

Lemma sorted_perm_unique {A} (R : A -> A -> Prop) l :
  forall l',
    StronglySorted R l -> StronglySorted R l' -> Permutation l l' ->
    (forall a b, In a l -> In b l -> R a b -> R b a -> a = b) ->
    l = l'.
Proof.
  induction l as [|x l IH]; intros l' Hs Hs' HP Hanti.
  - apply Permutation_nil in HP. now subst.
  - destruct l' as [|y l'];
      [apply Permutation_sym, Permutation_nil in HP; discriminate|].
    inversion Hs as [|? ? Hs1 Hx]; inversion Hs' as [|? ? Hs1' Hy]; subst.
    rewrite Forall_forall in Hx, Hy.
    assert (Hxy : x = y).
    { assert (Hx' : In x (y :: l'))
        by (eapply Permutation_in; [exact HP|left; reflexivity]).
      assert (Hy' : In y (x :: l))
        by (eapply Permutation_in;
            [apply Permutation_sym, HP|left; reflexivity]).
      destruct Hx' as [->|Hx']; [reflexivity|].
      destruct Hy' as [->|Hy']; [reflexivity|].
      apply Hanti; [left; reflexivity|right; exact Hy'|auto|auto]. }
    subst y. f_equal. apply IH; auto.
    + eapply Permutation_cons_inv, HP.
    + intros a b Ha Hb. apply Hanti; right; assumption.
Qed.

Lemma thousandths_antisym (a b : Q) :
  Qden a = 1000%positive -> Qden b = 1000%positive ->
  b <= a -> a <= b -> a = b.
Proof.
  destruct a as [za da], b as [zb db]. simpl. intros -> ->.
  unfold Qle. simpl. intros H1 H2. f_equal. lia.
Qed.

Lemma candidate_in_thousandths p ue rows os rec :
  Forall2 (outcome encode cos_sim p ue) rows os ->
  In rec (somes os) -> Qden (score rec) = 1000%positive.
Proof.
  intros HF Hin. apply In_somes in Hin.
  destruct (Forall2_In_r _ _ _ _ HF Hin) as (r & _ & t' & Ht').
  apply try_row_some, row_body_some in Ht'.
  destruct Ht' as (c1 & c2 & c3 & c4 & c5 & _ & _ & _ & _ & _ & _ & ->).
  reflexivity.
Qed.

(** X15.  With an embedder that answers the same for a given text, the
    scores returned do not depend on the order of the catalog: two
    catalogs with the same rows in different orders return the same list of
    scores (the order of the rows only decides which of several entries
    with equal scores comes first or is cut). *)
Theorem returned_scores_ignore_catalog_order
    (df df' : list (row Vec)) (p : UserInput) (t t' : trace)
    (out out' : list recommendation) :
  deterministic encode ->
  Permutation df df' ->
  fst (recommend_asanas encode cos_sim df p t) = inr out ->
  fst (recommend_asanas encode cos_sim df' p t') = inr out' ->
  map score out = map score out'.
Proof.
  intros Hdet HP H H'.
  apply recommend_asanas_inr in H, H'.
  destruct H as (_ & ue & t1 & os & Hq & HF & ->).
  destruct H' as (_ & ue' & t1' & os' & Hq' & HF' & ->).
  pose proof (query_embeddings_det encode p Hdet t t') as E.
  rewrite Hq, Hq' in E. simpl in E. injection E as <-.
  pose proof (somes_perm _ _ (outcomes_perm p ue df df' Hdet HP os os' HF HF'))
    as Hc.
  rewrite <- !firstn_map. f_equal.
  apply (sorted_perm_unique (fun a b : Q => b <= a)).
  - apply StronglySorted_map, sorted_reverse_sorted.
  - apply StronglySorted_map, sorted_reverse_sorted.
  - apply Permutation_map.
    eapply perm_trans; [apply Permutation_sym, sorted_reverse_perm|].
    eapply perm_trans; [exact Hc|apply sorted_reverse_perm].
  - intros a b Ha Hb. apply thousandths_antisym.
    + apply in_map_iff in Ha. destruct Ha as (x & <- & Hx).
      eapply (candidate_in_thousandths p ue df os x HF).
      eapply Permutation_in; [apply Permutation_sym, sorted_reverse_perm|exact Hx].
    + apply in_map_iff in Hb. destruct Hb as (x & <- & Hx).
      eapply (candidate_in_thousandths p ue df os x HF).
      eapply Permutation_in; [apply Permutation_sym, sorted_reverse_perm|exact Hx].
Qed.

End Calls.

(** ** Startup and health *)

(** X14.  When the module loads, both the model and the catalog were
    loaded; from then on the health endpoint reports the model as loaded and
    the number of rows of the catalog.  An empty catalog does not prevent
    startup: the endpoint then reports [data_loaded] false with 0 poses,
    under the status "healthy" all the same. *)
Theorem health_after_startup {Model Vec : Type}
    (load_model : exn + Model) (load_data : exn + list (row Vec))
    (model : Model) (df : list (row Vec)) :
  initialize load_model load_data = inr (model, df) ->
  load_model = inr model /\
  load_data = inr df /\
  Health.status (health_check (Some model) (Some df)) = "healthy" /\
  Health.model_loaded (health_check (Some model) (Some df)) = true /\
  Health.total_poses (health_check (Some model) (Some df)) = List.length df /\
  (Health.data_loaded (health_check (Some model) (Some df)) = true
   <-> df <> []).
Proof.
  unfold initialize.
  destruct load_model as [e|m]; [discriminate|].
  destruct load_data as [e|d]; [discriminate|].
  intros H. injection H as -> ->.
  repeat (split; [reflexivity|]). simpl.
  destruct df as [|r df]; simpl; split; intros H; try discriminate.
  - exfalso. apply H. reflexivity.
  - reflexivity.
Qed.

(** ** The further properties on the test doubles *)

Lemma request_fails_only_on_query_embedding_witness :
  valid Fixture.relaxed /\
  fst (recommend_asanas Outage.flaky Fixture.cos_sim Fixture.catalog
         Fixture.relaxed []) = inl (OtherError "device lost") /\
  exists k text,
    (k < 3)%nat /\
    nth_error (query_texts Fixture.relaxed) k = Some text /\
    Outage.flaky ([] ++ firstn k (query_texts Fixture.relaxed)) text
      = inl (OtherError "device lost") /\
    snd (recommend_asanas Outage.flaky Fixture.cos_sim Fixture.catalog
           Fixture.relaxed [])
      = [] ++ firstn (S k) (query_texts Fixture.relaxed).
Proof.
  assert (Hv : valid Fixture.relaxed) by (repeat split; discriminate).
  split; [exact Hv|]. split; [reflexivity|].
  destruct (request_fails_only_on_query_embedding Outage.flaky
              Fixture.cos_sim Fixture.catalog Fixture.relaxed [] Hv)
    as [_ Hcalls].
  apply Hcalls. reflexivity.
Defined.

Lemma handler_error_status_witness :
  valid Fixture.relaxed /\
  fst (get_recommendations Outage.picky Fixture.cos_sim Fixture.catalog
         Fixture.relaxed [])
    = inl {| status_code := 400; detail := "unsupported input" |} /\
  fst (get_recommendations Outage.flaky Fixture.cos_sim Fixture.catalog
         Fixture.relaxed [])
    = inl {| status_code := 500; detail := internal_error |}.
Proof.
  assert (Hv : valid Fixture.relaxed) by (repeat split; discriminate).
  split; [exact Hv|]. split.
  - destruct (handler_error_status Outage.picky Fixture.cos_sim
                Fixture.catalog Fixture.relaxed [] Hv) as [H400 _].
    apply H400. reflexivity.
  - destruct (handler_error_status Outage.flaky Fixture.cos_sim
                Fixture.catalog Fixture.relaxed [] Hv) as [_ [H500 _]].
    apply H500. exists "device lost". reflexivity.
Defined.

Lemma handler_success_shape_witness :
  exists resp,
    fst (get_recommendations Fixture.encode Fixture.cos_sim Fixture.catalog
           Fixture.relaxed []) = inr resp /\
    total_recommendations resp = Some 4%nat /\
    status resp = "success" /\
    fst (recommend_asanas Fixture.encode Fixture.cos_sim Fixture.catalog
           Fixture.relaxed []) = inr (recommended_asanas resp) /\
    (List.length (recommended_asanas resp) <= 10)%nat /\
    ((recommended_asanas resp = [] /\ resp = empty_response) \/
     (recommended_asanas resp <> [] /\
      message resp = None /\
      total_recommendations resp
        = Some (List.length (recommended_asanas resp)))).
Proof.
  eexists. split; [vm_compute; reflexivity|]. split; [reflexivity|].
  apply (handler_success_shape Fixture.encode Fixture.cos_sim Fixture.catalog
           Fixture.relaxed []).
  vm_compute. reflexivity.
Defined.

Lemma only_queries_and_folded_phrases_are_embedded_witness :
  valid Fixture.relaxed /\
  fst (query_embeddings Fixture.encode Fixture.relaxed [])
    = inr Fixture.relaxed_emb /\
  exists calls,
    snd (recommend_asanas Fixture.encode Fixture.cos_sim Fixture.catalog
           Fixture.relaxed [])
      = [] ++ query_texts Fixture.relaxed ++ calls /\
    Forall (fun c => In c (map Py.lower (issues Fixture.relaxed))) calls.
Proof.
  assert (Hv : valid Fixture.relaxed) by (repeat split; discriminate).
  split; [exact Hv|]. split; [reflexivity|].
  apply (only_queries_and_folded_phrases_are_embedded Fixture.encode
           Fixture.cos_sim Fixture.catalog Fixture.relaxed []
           Fixture.relaxed_emb Hv eq_refl).
Defined.

Lemma surviving_row_costs_one_call_per_phrase_witness :
  fst (discard_loop Fixture.encode Fixture.cos_sim
         (Py.lower (Contraindications Fixture.mild1))
         (Contraindications_emb Fixture.mild1) (issues Fixture.relaxed)
         Fixture.relaxed_trace) = inr false /\
  snd (row_body Fixture.encode Fixture.cos_sim Fixture.relaxed
         Fixture.relaxed_emb Fixture.mild1 Fixture.relaxed_trace)
    = Fixture.relaxed_trace ++ map Py.lower (issues Fixture.relaxed) /\
  snd (try_row Fixture.encode Fixture.cos_sim Fixture.relaxed
         Fixture.relaxed_emb Fixture.mild1 Fixture.relaxed_trace)
    = Fixture.relaxed_trace ++ map Py.lower (issues Fixture.relaxed).
Proof.
  split; [reflexivity|].
  apply (surviving_row_costs_one_call_per_phrase Fixture.encode
           Fixture.cos_sim Fixture.relaxed Fixture.relaxed_emb Fixture.mild1
           Fixture.relaxed_trace eq_refl).
Defined.

Lemma lexical_match_stops_embedding_witness :
  Py.contains (Py.lower "Knee Injury") "knee injury" = true /\
  (exists k,
     (k <= List.length ["back pain"])%nat /\
     snd (discard_loop Fixture.encode Fixture.cos_sim "knee injury"
            "knee injury" (["back pain"] ++ "Knee Injury" :: ["anxiety"]) [])
       = [] ++ map Py.lower (firstn k ["back pain"])) /\
  discard_loop Fixture.encode Fixture.cos_sim "knee injury" "knee injury"
    ("Knee Injury" :: ["anxiety"]) [] = (inr true, []).
Proof.
  split; [reflexivity|].
  apply (lexical_match_stops_embedding Fixture.encode Fixture.cos_sim
           "knee injury" "knee injury" ["back pain"] "Knee Injury"
           ["anxiety"] [] eq_refl).
Defined.

Lemma returned_entries_are_the_best_witness :
  exists out,
    fst (recommend_asanas Fixture.encode Fixture.cos_sim Fixture.long_catalog
           Fixture.relaxed []) = inr out /\
    exists ue os cut,
      fst (query_embeddings Fixture.encode Fixture.relaxed []) = inr ue /\
      Forall2 (outcome Fixture.encode Fixture.cos_sim Fixture.relaxed ue)
        Fixture.long_catalog os /\
      Permutation (somes os) (out ++ cut) /\
      List.length out = Nat.min 10 (List.length (somes os)) /\
      forall a b, In a out -> In b cut -> score b <= score a.
Proof.
  eexists. split; [vm_compute; reflexivity|].
  apply (returned_entries_are_the_best Fixture.encode Fixture.cos_sim
           Fixture.long_catalog Fixture.relaxed []).
  vm_compute. reflexivity.
Defined.

Lemma entries_pass_through_catalog_texts_witness :
  exists out,
    fst (recommend_asanas Fixture.encode Fixture.cos_sim Fixture.catalog
           Fixture.relaxed []) = inr out /\
    (List.length out <= List.length Fixture.catalog)%nat /\
    forall rec, In rec out ->
      exists r z,
        In r Fixture.catalog /\
        name rec = AName r /\
        benefits rec = Benefits r /\
        contraindications rec = Contraindications r /\
        score rec = z # 1000 /\ (0 <= z)%Z.
Proof.
  eexists. split; [vm_compute; reflexivity|].
  apply (entries_pass_through_catalog_texts Fixture.encode Fixture.cos_sim
           Fixture.catalog Fixture.relaxed []).
  vm_compute. reflexivity.
Defined.

Lemma unused_profile_fields_witness :
  recommend_asanas Fixture.encode Fixture.cos_sim Fixture.catalog
    Fixture.relaxed []
  = recommend_asanas Fixture.encode Fixture.cos_sim Fixture.catalog
      {| age := 71; height := 158; weight := 49;
         goals := ["relax"]; physical_issues := ["back pain"];
         mental_issues := ["anxiety"]; level := "advanced" |} [] /\
  get_recommendations Fixture.encode Fixture.cos_sim Fixture.catalog
    Fixture.relaxed []
  = get_recommendations Fixture.encode Fixture.cos_sim Fixture.catalog
      {| age := 71; height := 158; weight := 49;
         goals := ["relax"]; physical_issues := ["back pain"];
         mental_issues := ["anxiety"]; level := "advanced" |} [].
Proof.
  apply (unused_profile_fields Fixture.encode Fixture.cos_sim Fixture.catalog
           Fixture.relaxed
           {| age := 71; height := 158; weight := 49;
              goals := ["relax"]; physical_issues := ["back pain"];
              mental_issues := ["anxiety"]; level := "advanced" |} []
           eq_refl eq_refl eq_refl).
Defined.

Lemma filter_ignores_phrase_case_witness :
  map Py.lower (issues Fixture.knee_injury)
    = map Py.lower (issues (Fixture.profile ["calm"] ["KNEE injury"] ["Anxiety"]))
  /\
  discard_loop Fixture.encode Fixture.cos_sim
    (Py.lower (Contraindications Fixture.mild1))
    (Contraindications_emb Fixture.mild1) (issues Fixture.knee_injury) []
  = discard_loop Fixture.encode Fixture.cos_sim
      (Py.lower (Contraindications Fixture.mild1))
      (Contraindications_emb Fixture.mild1)
      (issues (Fixture.profile ["calm"] ["KNEE injury"] ["Anxiety"])) [] /\
  row_body Fixture.encode Fixture.cos_sim Fixture.knee_injury
    Fixture.relaxed_emb Fixture.mild1 []
  = row_body Fixture.encode Fixture.cos_sim
      (Fixture.profile ["calm"] ["KNEE injury"] ["Anxiety"])
      Fixture.relaxed_emb Fixture.mild1 [] /\
  try_row Fixture.encode Fixture.cos_sim Fixture.knee_injury
    Fixture.relaxed_emb Fixture.mild1 []
  = try_row Fixture.encode Fixture.cos_sim
      (Fixture.profile ["calm"] ["KNEE injury"] ["Anxiety"])
      Fixture.relaxed_emb Fixture.mild1 [].
Proof.
  split; [reflexivity|].
  apply (filter_ignores_phrase_case Fixture.encode Fixture.cos_sim
           Fixture.knee_injury
           (Fixture.profile ["calm"] ["KNEE injury"] ["Anxiety"])
           Fixture.relaxed_emb Fixture.mild1 [] eq_refl).
Defined.

Lemma exclusion_depends_on_phrase_set_witness :
  incl ["Knee"; "anxiety"] ["anxiety"; "Knee"; "anxiety"] /\
  incl ["anxiety"; "Knee"; "anxiety"] ["Knee"; "anxiety"] /\
  fst (discard_loop Fixture.encode Fixture.cos_total "none" "joints"
         ["Knee"; "anxiety"] [])
  = fst (discard_loop Fixture.encode Fixture.cos_total "none" "joints"
           ["anxiety"; "Knee"; "anxiety"] ["an earlier request"]).
Proof.
  assert (H1 : incl ["Knee"; "anxiety"] ["anxiety"; "Knee"; "anxiety"]).
  { intros x [<-|[<-|[]]]; simpl; auto. }
  assert (H2 : incl ["anxiety"; "Knee"; "anxiety"] ["Knee"; "anxiety"]).
  { intros x [<-|[<-|[<-|[]]]]; simpl; auto. }
  split; [exact H1|]. split; [exact H2|].
  destruct (exclusion_depends_on_phrase_set Fixture.encode Fixture.cos_total
              (fun text => text) Fixture.cos_table "none" "joints"
              ["Knee"; "anxiety"] ["anxiety"; "Knee"; "anxiety"]
              [] ["an earlier request"]
              (fun _ _ => eq_refl) (fun _ _ => eq_refl) H1) as [_ Heq].
  exact (Heq H2).
Defined.

Lemma nonpositive_cosines_are_never_recommended_witness :
  (forall t rec,
     fst (row_body Fixture.encode Fixture.cos_sim Fixture.relaxed
            Fixture.relaxed_emb
            (Fixture.pose "Dandasana" "tones legs" "none" "unrelated" "none")
            t) <> inr (Some rec)) /\
  (forall t,
     fst (try_row Fixture.encode Fixture.cos_sim Fixture.relaxed
            Fixture.relaxed_emb
            (Fixture.pose "Dandasana" "tones legs" "none" "unrelated" "none")
            t) = inr None).
Proof.
  apply (nonpositive_cosines_are_never_recommended Fixture.encode
           Fixture.cos_sim Fixture.relaxed Fixture.relaxed_emb
           (Fixture.pose "Dandasana" "tones legs" "none" "unrelated" "none")
           0 0 0 0 0 eq_refl eq_refl eq_refl eq_refl eq_refl);
    discriminate.
Defined.

Lemma returned_scores_ignore_catalog_order_witness :
  deterministic Fixture.encode /\
  Permutation Fixture.catalog (rev Fixture.catalog) /\
  exists out out',
    fst (recommend_asanas Fixture.encode Fixture.cos_sim Fixture.catalog
           Fixture.relaxed []) = inr out /\
    fst (recommend_asanas Fixture.encode Fixture.cos_sim
           (rev Fixture.catalog) Fixture.relaxed ["an earlier request"])
      = inr out' /\
    map name out <> map name out' /\
    map score out = map score out'.
Proof.
  assert (Hdet : deterministic Fixture.encode)
    by (intros t t' text; reflexivity).
  split; [exact Hdet|]. split; [apply Permutation_rev|].
  eexists. eexists. split; [vm_compute; reflexivity|].
  split; [vm_compute; reflexivity|]. split; [discriminate|].
  apply (returned_scores_ignore_catalog_order Fixture.encode Fixture.cos_sim
           Fixture.catalog (rev Fixture.catalog) Fixture.relaxed
           [] ["an earlier request"] _ _ Hdet (Permutation_rev _)).
  - vm_compute. reflexivity.
  - vm_compute. reflexivity.
Defined.

Lemma health_after_startup_witness :
  initialize (inr tt) (inr []) = inr (tt, @nil (row Fixture.Vec)) /\
  Health.status (health_check (Some tt) (Some (@nil (row Fixture.Vec))))
    = "healthy" /\
  Health.model_loaded (health_check (Some tt) (Some (@nil (row Fixture.Vec))))
    = true /\
  Health.total_poses (health_check (Some tt) (Some (@nil (row Fixture.Vec))))
    = 0%nat /\
  Health.data_loaded (health_check (Some tt) (Some (@nil (row Fixture.Vec))))
    = false.
Proof.
  destruct (health_after_startup (inr tt) (inr []) tt
              (@nil (row Fixture.Vec)) eq_refl)
    as (_ & _ & Hs & Hm & Ht & _).
  repeat split; assumption.
Defined.
